(** * A REST API over users, stores and products: the route handlers of
      [src/index.js], embedded over an in-memory relational store.

    The program is an Express application.  Every route handler parses a
    request, makes one or two calls to the database client and maps the
    result, or the error it throws, to an HTTP response.  The embedding
    follows that shape:

    - JavaScript values (request bodies, response bodies) are the inductive
      type [value]; the coercions the handlers rely on ([!x], [Number(x)],
      [String(x)], [RegExp.prototype.test]) are functions on it;
    - the database client is a state of three tables keyed by primary key,
      and a call either returns or throws a [PrismaError];
    - a handler is a function from the database state and the request to
      an HTTP response and the next database state.

    The second source file of the repository is an earlier draft of the same
    routes; its [PUT /stores:id] handler is an unfinished [try] block with
    no [catch] and no closing parenthesis, so the file is not a JavaScript
    module and defines no running handler.  The handlers embedded here are
    those of [src/index.js]. *)

From Stdlib Require Import ZArith Ascii String.
From Stdlib Require SpecFloat.
From stdpp Require Import base option list strings pretty gmap fin_maps sorting.

Local Open Scope string_scope.
Local Open Scope Z_scope.

(** ** JavaScript values *)

(** Numbers are IEEE 754 doubles, held by their exact value.  A finite
    one is an integer, or an odd numerator [m] over [2^k] with a sign; the
    others are the two infinities and [NaN].  The negative zero is not told
    from zero: the handlers test numbers for truthiness, print them and
    pass them to the database, and none of these sees the sign of a zero. *)
Inductive finite_number : Set :=
| Integer (z : Z)
| Fraction (negative : bool) (m k : positive).

Inductive number : Set :=
| NaN
| Finite (x : finite_number)
| Infinity (negative : bool).

Abbreviation Int z := (Finite (Integer z)).
Abbreviation Frac s m k := (Finite (Fraction s m k)).

#[global] Instance finite_number_eq_dec : EqDecision finite_number.
Proof. solve_decision. Defined.

#[global] Instance number_eq_dec : EqDecision number.
Proof. solve_decision. Defined.

(** [m / 2^k] in lowest terms. *)
Fixpoint dyadic (s : bool) (m k : positive) : number :=
  match m with
  | xO m' =>
      match k with
      | xH => Int (if s then Z.neg m' else Z.pos m')
      | _ => dyadic s m' (Pos.pred k)
      end
  | _ => Frac s m k
  end.

Definition of_spec_float (x : SpecFloat.spec_float) : number :=
  match x with
  | SpecFloat.S754_zero _ => Int 0
  | SpecFloat.S754_infinity s => Infinity s
  | SpecFloat.S754_nan => NaN
  | SpecFloat.S754_finite s m e =>
      match e with
      | Zneg k => dyadic s m k
      | _ => Int ((if s then Z.neg m else Z.pos m) * 2 ^ e)
      end
  end.

(** The double nearest to [num / den], ties to even: one correctly rounded
    division in binary64 (53 bits of precision, exponents below 1024). *)
Definition nearest_double (s : bool) (num : Z) (den : positive) : number :=
  match num with
  | Zpos n =>
      of_spec_float
        (SpecFloat.SFdiv 53 1024 (SpecFloat.S754_finite s n 0)
                         (SpecFloat.S754_finite false den 0))
  | _ => Int 0
  end.

(** The double nearest to [m * 10^e], for [m] not negative. *)
Definition nearest_decimal (s : bool) (m : Z) (e : Z) : number :=
  match e with
  | Zneg p => nearest_double s m (10 ^ p)%positive
  | _ => nearest_double s (m * 10 ^ e) 1
  end.

#[warnings="-register-all"]
Inductive value : Set :=
| VUndefined
| VNull
| VBool (b : bool)
| VNum (n : number)
| VStr (s : string)
| VArr (xs : list value)
| VObj (fields : list (string * value)).

(** A JavaScript object: its properties, each key once, in the order they
    were added. *)
Definition object : Set := list (string * value).

(** [o.k], and the destructuring [const { k } = o]: [undefined] when the
    object has no such property. *)
Fixpoint get (k : string) (o : object) : value :=
  match o with
  | [] => VUndefined
  | (k', v) :: o' => if String.eqb k k' then v else get k o'
  end.

(** ToBoolean: what [!x], [x ? a : b] and [x || y] test. *)
Definition truthy (v : value) : bool :=
  match v with
  | VUndefined | VNull => false
  | VBool b => b
  | VNum NaN => false
  | VNum (Int z) => negb (z =? 0)
  | VNum (Frac _ _ _) | VNum (Infinity _) => true
  | VStr s => negb (String.eqb s "")
  | VArr _ | VObj _ => true
  end.

Definition falsy (v : value) : bool := negb (truthy v).

(** [x || y] *)
Definition js_or (x y : value) : value := if truthy x then x else y.

(** *** Strings as sequences of code units

    A [string] holds the UTF-8 bytes of the text, as a string literal of
    this file does.  JavaScript sees a string as UTF-16 code units, and
    white space, the class [\S] and the grammar of numbers are defined on
    those.  A string is well-formed text: a lone surrogate, which a JSON
    escape can put into a JavaScript string, has no UTF-8 bytes. *)

Definition continuation (c : N) : bool := ((128 <=? c) && (c <=? 191))%N.

(** The code units of a code point. *)
Definition utf16 (cp : N) : list N :=
  if (cp <? 65536)%N then [cp]
  else [(55296 + (cp - 65536) / 1024)%N; (56320 + (cp - 65536) mod 1024)%N].

(** UTF-8 decoding.  A byte that does not start a well-formed sequence,
    which no decoded text contains, reads as U+FFFD. *)
Fixpoint decode (bytes : list N) : list N :=
  match bytes with
  | [] => []
  | b :: rest =>
      if (b <? 128)%N then b :: decode rest
      else
        match rest with
        | c1 :: rest1 =>
            if ((194 <=? b) && (b <=? 223) && continuation c1)%N then
              ((b - 192) * 64 + (c1 - 128))%N :: decode rest1
            else
              match rest1 with
              | c2 :: rest2 =>
                  if ((224 <=? b) && (b <=? 239) && continuation c1
                      && continuation c2
                      && negb ((b =? 224) && (c1 <? 160))
                      && negb ((b =? 237) && (159 <? c1)))%N
                  then
                    ((b - 224) * 4096 + (c1 - 128) * 64 + (c2 - 128))%N
                      :: decode rest2
                  else
                    match rest2 with
                    | c3 :: rest3 =>
                        if ((240 <=? b) && (b <=? 244) && continuation c1
                            && continuation c2 && continuation c3
                            && negb ((b =? 240) && (c1 <? 144))
                            && negb ((b =? 244) && (143 <? c1)))%N
                        then
                          utf16 ((b - 240) * 262144 + (c1 - 128) * 4096
                                 + (c2 - 128) * 64 + (c3 - 128))%N
                            ++ decode rest3
                        else 65533%N :: decode rest
                    | [] => 65533%N :: decode rest
                    end
              | [] => 65533%N :: decode rest
              end
        | [] => [65533%N]
        end
  end.

Definition code_units (s : string) : list N :=
  decode (N_of_ascii <$> list_ascii_of_string s).

(** The code unit of an ASCII character. *)
Definition code_unit (c : ascii) : N := N_of_ascii c.

(** WhiteSpace and LineTerminator: what [String.prototype.trim], [Number]
    and the class [\s] take for white space. *)
Definition is_space (u : N) : bool :=
  ((9 <=? u) && (u <=? 13) || (u =? 32) || (u =? 160) || (u =? 5760)
   || (8192 <=? u) && (u <=? 8202) || (u =? 8232) || (u =? 8233)
   || (u =? 8239) || (u =? 8287) || (u =? 12288) || (u =? 65279))%N.

Fixpoint trim_start (l : list N) : list N :=
  match l with
  | u :: l' => if is_space u then trim_start l' else l
  | [] => []
  end.

Definition trim (l : list N) : list N :=
  rev (trim_start (rev (trim_start l))).

(** *** StringToNumber *)

(** The value of a digit in a base up to 16. *)
Definition digit_of (base : Z) (u : N) : option Z :=
  let d :=
    if ((48 <=? u) && (u <=? 57))%N then Z.of_N u - 48
    else if ((97 <=? u) && (u <=? 102))%N then Z.of_N u - 87
    else if ((65 <=? u) && (u <=? 70))%N then Z.of_N u - 55
    else 16 in
  if d <? base then Some d else None.

(** The longest run of digits at the front of [l]: its value on top of
    [acc], how many digits it has, and what follows. *)
Fixpoint digits (base : Z) (acc : Z) (count : Z) (l : list N)
  : Z * Z * list N :=
  match l with
  | u :: l' =>
      match digit_of base u with
      | Some d => digits base (base * acc + d) (count + 1) l'
      | None => (acc, count, l)
      end
  | [] => (acc, count, [])
  end.

(** A non-decimal integer literal after its prefix: digits only. *)
Definition radix_literal (base : Z) (l : list N) : number :=
  match digits base 0 0 l with
  | (v, count, []) => if 0 <? count then nearest_decimal false v 0 else NaN
  | _ => NaN
  end.

(** An optional sign: whether it is [-], and what follows. *)
Definition sign (l : list N) : bool * list N :=
  match l with
  | 45%N :: l' => (true, l')
  | 43%N :: l' => (false, l')
  | _ => (false, l)
  end.

(** An exponent part, or nothing: [None] when what is there is neither. *)
Definition exponent_part (l : list N) : option Z :=
  match l with
  | [] => Some 0
  | u :: l' =>
      if ((u =? 101) || (u =? 69))%N then
        let '(s, l'') := sign l' in
        match digits 10 0 0 l'' with
        | (e, count, []) =>
            if 0 <? count then Some (if s then - e else e) else None
        | _ => None
        end
      else None
  end.

(** StrUnsignedDecimalLiteral: [Infinity], or digits with an optional
    fraction and an optional exponent, at least one digit before or after
    the point. *)
Definition unsigned_literal (s : bool) (l : list N) : number :=
  if bool_decide (l = code_units "Infinity") then Infinity s
  else
    let '(i, ni, after_int) := digits 10 0 0 l in
    let '(m, nf, after_frac) :=
      match after_int with
      | 46%N :: l' => digits 10 i 0 l'
      | _ => (i, 0, after_int)
      end in
    if 0 <? ni + nf then
      match exponent_part after_frac with
      | Some e => nearest_decimal s m (e - nf)
      | None => NaN
      end
    else NaN.

(** StringToNumber: white space is trimmed; the empty string is [0]; a
    literal with the prefix [0x], [0o] or [0b] is an unsigned integer in
    that base; anything else is an optionally signed decimal literal or
    [NaN]. *)
Definition string_to_number (s : string) : number :=
  match trim (code_units s) with
  | [] => Int 0
  | 48%N :: p :: l =>
      if ((p =? 120) || (p =? 88))%N then radix_literal 16 l
      else if ((p =? 111) || (p =? 79))%N then radix_literal 8 l
      else if ((p =? 98) || (p =? 66))%N then radix_literal 2 l
      else unsigned_literal false (48%N :: p :: l)
  | l => let '(s, l') := sign l in unsigned_literal s l'
  end.

(** *** Number::toString *)

(** [x < 10^n] for the positive rational [x = a / b]. *)
Definition below_power (a b : Z) (n : Z) : bool :=
  match n with
  | Zneg p => a * 10 ^ Zpos p <? b
  | _ => a <? b * 10 ^ n
  end.

(** The [n] with [10^(n-1) <= a / b < 10^n], searched upwards from [n]. *)
Fixpoint magnitude (fuel : nat) (a b : Z) (n : Z) : Z :=
  match fuel with
  | O => n
  | S fuel' => if below_power a b n then n else magnitude fuel' a b (n + 1)
  end.

(** The shortest decimal that converts back to the double [x = a / b],
    with [k] digits tried in turn: the digits [s] as an integer and the
    [n] with [x] about [s * 10^(n-k)].  Of the two [k]-digit decimals
    around [x] the one that converts back is taken, the nearer when both
    do, the even one when they are as near. *)
Fixpoint shortest (tries : nat) (x : number) (a b : Z) (n k : Z) : Z * Z :=
  let p := k - n in
  let num := match p with Zneg q => a | _ => a * 10 ^ p end in
  let den := match p with Zneg q => b * 10 ^ Zpos q | _ => b end in
  let lo := num / den in
  let hi := lo + 1 in
  let back (c : Z) := bool_decide (nearest_decimal false c (n - k) = x) in
  let below := num - lo * den in
  let above := hi * den - num in
  let pick (c : Z) := if c =? 10 ^ k then (1, n + 1) else (c, n) in
  match tries with
  | O => (lo, n)
  | S tries' =>
      if back lo && back hi then
        if below <? above then pick lo
        else if above <? below then pick hi
        else if Z.even lo then pick lo else pick hi
      else if back lo then pick lo
      else if back hi then pick hi
      else shortest tries' x a b n (k + 1)
  end.

Fixpoint zeros (n : nat) : string :=
  match n with
  | O => ""
  | S n' => String "0" (zeros n')
  end.

(** The text of a positive finite number of exact value [a / b]. *)
Definition positive_to_string (x : number) (a b : Z) : string :=
  let n0 := magnitude (700 + Z.to_nat (Z.log2 a)) a b (if b <=? a then 1 else -324) in
  let '(s, n) := shortest 17 x a b n0 1 in
  let ds := pretty s in
  let k := Z.of_nat (String.length ds) in
  if (k <=? n) && (n <=? 21) then ds +:+ zeros (Z.to_nat (n - k))
  else if (0 <? n) && (n <=? 21) then
    substring 0 (Z.to_nat n) ds +:+ "." +:+
    substring (Z.to_nat n) (Z.to_nat (k - n)) ds
  else if (-6 <? n) && (n <=? 0) then "0." +:+ zeros (Z.to_nat (- n)) +:+ ds
  else
    let e := n - 1 in
    let exponent := (if e <? 0 then "e-" else "e+") +:+ pretty (Z.abs e) in
    if k =? 1 then ds +:+ exponent
    else substring 0 1 ds +:+ "." +:+
         substring 1 (Z.to_nat (k - 1)) ds +:+ exponent.

(** Number::toString in base ten. *)
Definition number_to_string (x : number) : string :=
  match x with
  | NaN => "NaN"
  | Infinity s => if s then "-Infinity" else "Infinity"
  | Int 0 => "0"
  | Int (Zpos m) => positive_to_string x (Zpos m) 1
  | Int (Zneg m) => "-" +:+ positive_to_string (Int (Zpos m)) (Zpos m) 1
  | Frac s m k =>
      (if s then "-" else "") +:+
      positive_to_string (Frac false m k) (Zpos m) (2 ^ Zpos k)
  end.

(** ToString.  An array is the comma-separated strings of its elements,
    [null] and [undefined] elements giving the empty string. *)
Fixpoint to_string (v : value) : string :=
  match v with
  | VUndefined => "undefined"
  | VNull => "null"
  | VBool true => "true"
  | VBool false => "false"
  | VNum n => number_to_string n
  | VStr s => s
  | VArr xs =>
      let elt (x : value) : string :=
        match x with
        | VUndefined | VNull => ""
        | _ => to_string x
        end in
      (fix join (l : list value) : string :=
         match l with
         | [] => ""
         | [x] => elt x
         | x :: l' => elt x +:+ "," +:+ join l'
         end) xs
  | VObj _ => "[object Object]"
  end.

(** [Number(x)] *)
Definition Number (v : value) : number :=
  match v with
  | VUndefined => NaN
  | VNull => Int 0
  | VBool true => Int 1
  | VBool false => Int 0
  | VNum n => n
  | VStr s => string_to_number s
  | VArr _ => string_to_number (to_string v)
  | VObj _ => NaN
  end.

(** ** Regular expressions

    The one regular expression of the program is the literal
    [/^\S+@\S+\.\S+$/] of [POST /users].  Regular expressions are a small
    syntax with a matcher by derivatives, which runs on any sequence of
    code units; the relation [Matches] is what a pattern means, and the
    matcher is proved to decide it. *)

Inductive regex : Set :=
| Void
| Eps
| Chr (c : N)
| NonSpace
| Alt (r1 r2 : regex)
| Seq (r1 r2 : regex)
| Star (r : regex).

(** [r+] *)
Definition Plus (r : regex) : regex := Seq r (Star r).

Inductive Matches : regex -> list N -> Prop :=
| MEps : Matches Eps []
| MChr c : Matches (Chr c) [c]
| MNonSpace c : is_space c = false -> Matches NonSpace [c]
| MAltL r1 r2 s : Matches r1 s -> Matches (Alt r1 r2) s
| MAltR r1 r2 s : Matches r2 s -> Matches (Alt r1 r2) s
| MSeq r1 r2 s1 s2 :
    Matches r1 s1 -> Matches r2 s2 -> Matches (Seq r1 r2) (s1 ++ s2)
| MStarNil r : Matches (Star r) []
| MStarApp r s1 s2 :
    Matches r s1 -> Matches (Star r) s2 -> Matches (Star r) (s1 ++ s2).

Fixpoint nullable (r : regex) : bool :=
  match r with
  | Void | Chr _ | NonSpace => false
  | Eps | Star _ => true
  | Alt r1 r2 => nullable r1 || nullable r2
  | Seq r1 r2 => nullable r1 && nullable r2
  end.

Fixpoint deriv (c : N) (r : regex) : regex :=
  match r with
  | Void | Eps => Void
  | Chr c' => if (c =? c')%N then Eps else Void
  | NonSpace => if is_space c then Void else Eps
  | Alt r1 r2 => Alt (deriv c r1) (deriv c r2)
  | Seq r1 r2 =>
      if nullable r1
      then Alt (Seq (deriv c r1) r2) (deriv c r2)
      else Seq (deriv c r1) r2
  | Star r' => Seq (deriv c r') (Star r')
  end.

Fixpoint matches (r : regex) (s : list N) : bool :=
  match s with
  | [] => nullable r
  | c :: s' => matches (deriv c r) s'
  end.

(** [/^r$/.test(x)]: the argument is converted to a string, and with both
    anchors the whole string has to match. *)
Definition test_anchored (r : regex) (x : value) : bool :=
  matches r (code_units (to_string x)).

(** [/^\S+@\S+\.\S+$/] without its anchors *)
Definition email_pattern : regex :=
  Seq (Plus NonSpace)
    (Seq (Chr (code_unit "@"))
       (Seq (Plus NonSpace) (Seq (Chr (code_unit ".")) (Plus NonSpace)))).

(** ** Errors and results of a database call *)

(** The fields of a thrown error that the handlers read: [error.code],
    [error.meta] with its [target] (an array with the columns of a violated
    unique constraint) and [error.message].  A field that is absent reads as
    [undefined]. *)
Record ErrorMeta : Set := { target : option (list string) }.

Record PrismaError : Set := {
  code : option string;
  meta : option ErrorMeta;
  message : string
}.

(** A call returns a value or throws. *)
Inductive result (A : Type) : Type :=
| Ok (a : A)
| Throw (e : PrismaError).
Arguments Ok {A} a.
Arguments Throw {A} e.

#[global] Instance result_ret : MRet result := @Ok.
#[global] Instance result_bind : MBind result := fun A B f m =>
  match m with
  | Ok a => f a
  | Throw e => Throw e
  end.

(** [error.code === c] *)
Definition code_is (c : string) (error : PrismaError) : bool :=
  bool_decide (code error = Some c).

(** [error.meta] as a JavaScript value *)
Definition meta_value (error : PrismaError) : value :=
  match meta error with
  | None => VUndefined
  | Some m =>
      VObj match target m with
           | None => []
           | Some cols => [("target", VArr (VStr <$> cols))]
           end
  end.

(** [cols.join(sep)] on an array of strings *)
Fixpoint join (sep : string) (cols : list string) : string :=
  match cols with
  | [] => ""
  | [c] => c
  | c :: cols' => c +:+ sep +:+ join sep cols'
  end.

(** [error.meta?.target?.join(", ")] *)
Definition meta_target_joined (error : PrismaError) : value :=
  match meta error with
  | None => VUndefined
  | Some m =>
      match target m with
      | None => VUndefined
      | Some cols => VStr (join ", " cols)
      end
  end.

(** ** HTTP responses *)

(** The JSON document [JSON.stringify] writes for a value, read back as a
    value: a property whose value is [undefined] is left out of its object,
    [undefined] inside an array becomes [null], and so does a number that
    is [NaN] or infinite. *)
Fixpoint wire (v : value) : value :=
  match v with
  | VNum NaN | VNum (Infinity _) => VNull
  | VArr xs =>
      VArr ((fun x => match x with
                      | VUndefined => VNull
                      | _ => wire x
                      end) <$> xs)
  | VObj fields =>
      VObj ((fix props (l : list (string * value)) : list (string * value) :=
               match l with
               | [] => []
               | (k, VUndefined) :: l' => props l'
               | (k, x) :: l' => (k, wire x) :: props l'
               end) fields)
  | _ => v
  end.

(** A response: the status code and the JSON document sent, if any. *)
Record response : Set := { status : Z; body : option value }.

(** [res.status(s).json(v)] *)
Definition res_json (s : Z) (v : value) : response :=
  {| status := s; body := Some (wire v) |}.

(** [res.status(s).end()] *)
Definition res_end (s : Z) : response := {| status := s; body := None |}.

(** Whether a JSON document is an object with property [k]. *)
Definition has_property (k : string) (v : value) : bool :=
  match v with
  | VObj fields => bool_decide (k ∈ fields.*1)
  | _ => false
  end.

(** [v.k] on a value *)
Definition property (k : string) (v : value) : value :=
  match v with
  | VObj fields => get k fields
  | _ => VUndefined
  end.

(** ** The relational store

    The schema and the database client are not part of the route file.  The
    columns are the ones the handlers write and read; the constraints and
    what each call of the client does are modelled from the data model of
    the specification.  A table is a finite map from the primary key to the
    row, so a key identifies at most one row.  Time stamps are milliseconds
    since the epoch. *)

(** Modelled from the spec: the user table of the schema, which is not in
    the route file.  Name, email (unique) and password, stored as received,
    and the two time stamps [GET /stores/:id] selects. *)
Record User : Set := {
  u_name : string;
  u_email : string;
  u_password : string;
  u_createdAt : Z;
  u_updatedAt : Z
}.

(** Modelled from the spec: the store table of the schema; a store belongs
    to exactly one user. *)
Record Store : Set := {
  s_name : string;
  s_userId : Z
}.

(** Modelled from the spec: the product table of the schema; a product
    belongs to exactly one store and has a name, a numeric price (any
    finite number) and two time stamps. *)
Record Product : Set := {
  p_name : string;
  p_price : finite_number;
  p_storeId : Z;
  p_createdAt : Z;
  p_updatedAt : Z
}.

(** Modelled from the spec: the state of the database, its three tables
    and the auto-increment sequences of their keys. *)
Record DB : Type := {
  users : gmap Z User;
  stores : gmap Z Store;
  products : gmap Z Product;
  (* the last key each auto-increment sequence handed out *)
  user_seq : Z;
  store_seq : Z;
  product_seq : Z
}.

(** The records the client returns, as JavaScript objects.  A [Date] is
    shown by its milliseconds. *)
Definition user_json (r : Z * User) : object :=
  [("id", VNum (Int r.1));
   ("name", VStr (u_name r.2));
   ("email", VStr (u_email r.2));
   ("password", VStr (u_password r.2));
   ("createdAt", VNum (Int (u_createdAt r.2)));
   ("updatedAt", VNum (Int (u_updatedAt r.2)))].

Definition store_json (r : Z * Store) : object :=
  [("id", VNum (Int r.1));
   ("name", VStr (s_name r.2));
   ("userId", VNum (Int (s_userId r.2)))].

Definition product_json (r : Z * Product) : object :=
  [("id", VNum (Int r.1));
   ("name", VStr (p_name r.2));
   ("price", VNum (Finite (p_price r.2)));
   ("storeId", VNum (Int (p_storeId r.2)));
   ("createdAt", VNum (Int (p_createdAt r.2)));
   ("updatedAt", VNum (Int (p_updatedAt r.2)))].

(** [select: { k: true, ... }]: the listed properties only. *)
Definition select (keys : list string) (o : object) : object :=
  List.filter (fun kv => bool_decide (kv.1 ∈ keys)) o.

(** Orders of [orderBy]. *)
Definition id_asc {A : Type} : relation (Z * A) := fun x y => x.1 <= y.1.
Definition createdAt_desc : relation (Z * Product) :=
  fun x y => p_createdAt y.2 <= p_createdAt x.2.

#[global] Instance id_asc_dec {A} : RelDecision (@id_asc A).
Proof. intros x y. unfold id_asc. apply _. Defined.
#[global] Instance createdAt_desc_dec : RelDecision createdAt_desc.
Proof. intros x y. unfold createdAt_desc. apply _. Defined.

(** Modelled from the spec: the errors of the client, which is not in the
    route file.  A request that does not fit the schema is refused before
    it reaches the database, with an error that carries no code.  So is
    a key or a reference that is not an integer: a fraction, an infinity
    or [NaN]. *)
Definition validation_error (call : string) : PrismaError :=
  {| code := None; meta := None;
     message := "Invalid `" +:+ call +:+ "` invocation" |}.

(** Modelled from the spec: a unique-constraint violation, with the
    columns of the constraint as its target. *)
Definition unique_violation (cols : list string) : PrismaError :=
  {| code := Some "P2002";
     meta := Some {| target := Some cols |};
     message := "Unique constraint failed on the fields: (" +:+
                join "," cols +:+ ")" |}.

(** Modelled from the spec: record not found on a mutation. *)
Definition record_not_found (call : string) : PrismaError :=
  {| code := Some "P2025"; meta := None;
     message := "An operation failed because it depends on one or more " +:+
                "records that were required but not found (" +:+ call +:+
                ")" |}.

(** Modelled from the spec: a foreign-key violation. *)
Definition foreign_key_violation (col : string) : PrismaError :=
  {| code := Some "P2003"; meta := None;
     message := "Foreign key constraint failed on the field: " +:+ col |}.

(** The database with one table, and the sequence of its keys, replaced. *)
Definition with_users (db : DB) (us : gmap Z User) (seq : Z) : DB :=
  {| users := us; stores := stores db; products := products db;
     user_seq := seq; store_seq := store_seq db;
     product_seq := product_seq db |}.

Definition with_stores (db : DB) (ss : gmap Z Store) (seq : Z) : DB :=
  {| users := users db; stores := ss; products := products db;
     user_seq := user_seq db; store_seq := seq;
     product_seq := product_seq db |}.

Definition with_products (db : DB) (ps : gmap Z Product) (seq : Z) : DB :=
  {| users := users db; stores := stores db; products := ps;
     user_seq := user_seq db; store_seq := store_seq db;
     product_seq := seq |}.

(** The owner of the store a product belongs to, if that store exists. *)
Definition product_owner (db : DB) (p : Product) : option Z :=
  s_userId <$> stores db !! p_storeId p.

Module prisma.

Module user.

(** Modelled from the spec: [prisma.user.create({ data: { name, email,
    password } })].  The three columns are required strings, stored as
    received; the email is unique among users; the key comes from the
    sequence and both time stamps are set to the time of the call. *)
Definition create (now : Z) (db : DB) (name email password : value)
  : result ((Z * User) * DB) :=
  match name, email, password with
  | VStr n, VStr e, VStr p =>
      if bool_decide (map_Exists (fun _ u => u_email u = e) (users db))
      then Throw (unique_violation ["email"])
      else
        let id := user_seq db + 1 in
        let row := {| u_name := n; u_email := e; u_password := p;
                      u_createdAt := now; u_updatedAt := now |} in
        Ok ((id, row), with_users db (<[id := row]> (users db)) id)
  | _, _, _ => Throw (validation_error "prisma.user.create()")
  end.

(** Modelled from the spec: [prisma.user.findMany({ orderBy: { id: "asc" }
    })], all users by ascending identifier. *)
Definition findMany (db : DB) : result (list (Z * User)) :=
  Ok (merge_sort id_asc (map_to_list (users db))).

(** Modelled from the spec: [prisma.user.findUnique({ where: { id } })];
    the identifier is an integer column. *)
Definition findUnique (db : DB) (id : number) : result (option (Z * User)) :=
  match id with
  | Int n => Ok (pair n <$> users db !! n)
  | _ => Throw (validation_error "prisma.user.findUnique()")
  end.

(** Modelled from the spec: [prisma.user.delete({ where: { id } })].
    Deleting a user deletes the stores the user owns and, through them,
    their products; a user that does not exist is the record-not-found
    error. *)
Definition delete (db : DB) (id : number) : result ((Z * User) * DB) :=
  match id with
  | Int n =>
      match users db !! n with
      | Some u =>
          Ok ((n, u),
              {| users := base.delete n (users db);
                 stores := filter (fun r => s_userId r.2 ≠ n) (stores db);
                 products :=
                   filter (fun r => product_owner db r.2 ≠ Some n)
                          (products db);
                 user_seq := user_seq db; store_seq := store_seq db;
                 product_seq := product_seq db |})
      | None => Throw (record_not_found "prisma.user.delete()")
      end
  | _ => Throw (validation_error "prisma.user.delete()")
  end.

End user.

Module store.

(** Modelled from the spec: [prisma.store.create({ data: { name, userId },
    include: { user: true } })].  The name is a required string, the owner
    a required reference to an existing user; the created store is
    returned with its owner. *)
Definition create (db : DB) (name : value) (userId : number)
  : result ((Z * Store) * (Z * User) * DB) :=
  match name, userId with
  | VStr n, Int u =>
      match users db !! u with
      | Some owner =>
          let id := store_seq db + 1 in
          let row := {| s_name := n; s_userId := u |} in
          Ok ((id, row), (u, owner),
              with_stores db (<[id := row]> (stores db)) id)
      | None => Throw (foreign_key_violation "userId")
      end
  | _, _ => Throw (validation_error "prisma.store.create()")
  end.

(** The products of a store, latest created first:
    [products: { orderBy: { createdAt: "desc" } }]. *)
Definition products_of (db : DB) (id : Z) : list (Z * Product) :=
  merge_sort createdAt_desc
    (map_to_list (filter (fun r => p_storeId r.2 = id) (products db))).

(** Modelled from the spec: [prisma.store.findUnique({ where: { id },
    include: { user, products } })]: the store, its owner and its
    products, or [null] when no store has this identifier. *)
Definition findUnique (db : DB) (id : number)
  : result (option ((Z * Store) * option (Z * User) * list (Z * Product))) :=
  match id with
  | Int n =>
      Ok (s ← stores db !! n;
          Some ((n, s), pair (s_userId s) <$> users db !! s_userId s,
                products_of db n))
  | _ => Throw (validation_error "prisma.store.findUnique()")
  end.

(** Modelled from the spec: [prisma.store.update({ where: { id }, data: {
    name, userId } })].  A property of [data] that is [undefined] is not
    part of the update and its column keeps its value.  The store has to
    exist (record-not-found otherwise) and a new owner has to be an
    existing user (foreign-key violation otherwise). *)
Definition update (db : DB) (id : number) (name userId : value)
  : result ((Z * Store) * DB) :=
  let call := "prisma.store.update()" in
  match id with
  | Int n =>
      new_name ← match name with
                 | VUndefined => Ok None
                 | VStr s => Ok (Some s)
                 | _ => Throw (validation_error call)
                 end;
      new_owner ← match userId with
                  | VUndefined => Ok None
                  | VNum (Int u) => Ok (Some u)
                  | _ => Throw (validation_error call)
                  end;
      match stores db !! n with
      | None => Throw (record_not_found call)
      | Some s =>
          if match new_owner with
             | Some u => bool_decide (users db !! u = None)
             | None => false
             end
          then Throw (foreign_key_violation "userId")
          else
            let row := {| s_name := default (s_name s) new_name;
                          s_userId := default (s_userId s) new_owner |} in
            Ok ((n, row),
                with_stores db (<[n := row]> (stores db)) (store_seq db))
      end
  | _ => Throw (validation_error call)
  end.

(** Modelled from the spec: [prisma.store.delete({ where: { id } })];
    the products of the store are deleted with it. *)
Definition delete (db : DB) (id : number) : result ((Z * Store) * DB) :=
  match id with
  | Int n =>
      match stores db !! n with
      | Some s =>
          Ok ((n, s),
              {| users := users db;
                 stores := base.delete n (stores db);
                 products :=
                   filter (fun r => p_storeId r.2 ≠ n) (products db);
                 user_seq := user_seq db; store_seq := store_seq db;
                 product_seq := product_seq db |})
      | None => Throw (record_not_found "prisma.store.delete()")
      end
  | _ => Throw (validation_error "prisma.store.delete()")
  end.

End store.

Module product.

(** Modelled from the spec: [prisma.product.create({ data: { name, price,
    storeId, updatedAt } })].  The name is a required string, the price a
    required finite number, the store a required reference to an existing
    store; the creation time is the time [now] of the database at the call
    and the update time the one given. *)
Definition create (now : Z) (db : DB) (name : value) (price storeId : number)
    (updatedAt : Z) : result ((Z * Product) * DB) :=
  match name, price, storeId with
  | VStr n, Finite pr, Int st =>
      match stores db !! st with
      | Some _ =>
          let id := product_seq db + 1 in
          let row := {| p_name := n; p_price := pr; p_storeId := st;
                        p_createdAt := now; p_updatedAt := updatedAt |} in
          Ok ((id, row), with_products db (<[id := row]> (products db)) id)
      | None => Throw (foreign_key_violation "storeId")
      end
  | _, _, _ => Throw (validation_error "prisma.product.create()")
  end.

(** Modelled from the spec: [prisma.product.findMany({ include: { store: {
    include: { user: true } } } })]: every product with its store and
    that store's owner, in the order the table gives them. *)
Definition findMany (db : DB)
  : result (list ((Z * Product) * option ((Z * Store) * option (Z * User)))) :=
  Ok ((fun r : Z * Product =>
         (r, s ← stores db !! p_storeId r.2;
             Some ((p_storeId r.2, s),
                   pair (s_userId s) <$> users db !! s_userId s)))
        <$> map_to_list (products db)).

(** Modelled from the spec: [prisma.product.update({ where: { id }, data:
    { name, price, storeId } })], a partial update as for stores. *)
Definition update (db : DB) (id : number) (name price storeId : value)
  : result ((Z * Product) * DB) :=
  let call := "prisma.product.update()" in
  match id with
  | Int n =>
      new_name ← match name with
                 | VUndefined => Ok None
                 | VStr s => Ok (Some s)
                 | _ => Throw (validation_error call)
                 end;
      new_price ← match price with
                  | VUndefined => Ok None
                  | VNum (Finite pr) => Ok (Some pr)
                  | _ => Throw (validation_error call)
                  end;
      new_store ← match storeId with
                  | VUndefined => Ok None
                  | VNum (Int st) => Ok (Some st)
                  | _ => Throw (validation_error call)
                  end;
      match products db !! n with
      | None => Throw (record_not_found call)
      | Some p =>
          if match new_store with
             | Some st => bool_decide (stores db !! st = None)
             | None => false
             end
          then Throw (foreign_key_violation "storeId")
          else
            let row := {| p_name := default (p_name p) new_name;
                          p_price := default (p_price p) new_price;
                          p_storeId := default (p_storeId p) new_store;
                          p_createdAt := p_createdAt p;
                          p_updatedAt := p_updatedAt p |} in
            Ok ((n, row),
                with_products db (<[n := row]> (products db))
                              (product_seq db))
      end
  | _ => Throw (validation_error call)
  end.

(** Modelled from the spec: [prisma.product.delete({ where: { id } })]. *)
Definition delete (db : DB) (id : number) : result ((Z * Product) * DB) :=
  match id with
  | Int n =>
      match products db !! n with
      | Some p =>
          Ok ((n, p),
              with_products db (base.delete n (products db))
                            (product_seq db))
      | None => Throw (record_not_found "prisma.product.delete()")
      end
  | _ => Throw (validation_error "prisma.product.delete()")
  end.

End product.

End prisma.

(** ** The application *)

(** A request: the route parameter [req.params.id] (the empty string on a
    route without one) and the parsed JSON object [req.body]. *)
Record request : Set := { params_id : string; req_body : object }.

(** [try { ... } catch (error) { ... }] around database calls: a call that
    throws leaves the database as it was, and the handler answers with what
    its [catch] block sends. *)
Definition try_catch (db : DB) (attempt : result (response * DB))
    (catch : PrismaError -> response) : response * DB :=
  match attempt with
  | Ok out => out
  | Throw error => (catch error, db)
  end.

Section App.

(** [process.env.NODE_ENV] *)
Variable NODE_ENV : option string.

(** The shared error mapper, [errorHandler(error, res)]. *)
Definition errorHandler (error : PrismaError) : response :=
  if code_is "P2002" error then
    res_json 409 (VObj [("error", VStr "Conflito de dados únicos");
                        ("detail", meta_target_joined error)])
  else if code_is "P2025" error then
    res_json 404 (VObj [("error", VStr "Recurso não encontrado")])
  else if code_is "P2003" error then
    res_json 400
      (VObj [("error", VStr "Violação de restrição de chave estrangeira");
             ("detail", VStr "O ID referenciado não existe")])
  else
    res_json 500
      (VObj [("error", VStr "Erro interno do servidor");
             ("detail", if bool_decide (NODE_ENV = Some "development")
                        then VStr (message error) else VUndefined)]).

(** [GET /] *)
Definition get_root (db : DB) (_req : request) : response * DB :=
  (res_json 200 (VObj [("ok", VBool true);
                       ("service", VStr "API 3º Bimestre")]), db).

(** [POST /users] *)
Definition post_users (now : Z) (db : DB) (req : request) : response * DB :=
  try_catch db
    (let name := get "name" (req_body req) in
     let email := get "email" (req_body req) in
     let password := get "password" (req_body req) in
     if falsy name || falsy email || falsy password then
       Ok (res_json 400
             (VObj
                [("error",
                  VStr "Campos obrigatórios ausentes (name, email, password)")]),
           db)
     else if negb (test_anchored email_pattern email) then
       Ok (res_json 400 (VObj [("error", VStr "Email em formato inválido")]),
           db)
     else
       '(novoUsuario, db') ← prisma.user.create now db name email password;
       Ok (res_json 201 (VObj (user_json novoUsuario)), db'))
    (fun error =>
       if code_is "P2002" error then
         res_json 409
           (VObj [("error", VStr "E-mail já cadastrado");
                  ("detail", js_or (meta_value error) (VStr (message error)))])
       else
         res_json 500 (VObj [("error", VStr "Erro ao criar usuário");
                             ("detail", VStr (message error))])).

(** [GET /users] *)
Definition get_users (db : DB) (_req : request) : response * DB :=
  try_catch db
    (usuarios ← prisma.user.findMany db;
     Ok (res_json 200 (VArr (VObj ∘ user_json <$> usuarios)), db))
    errorHandler.

(** [DELETE /users/:id] *)
Definition delete_users_id (db : DB) (req : request) : response * DB :=
  try_catch db
    (let userId := Number (VStr (params_id req)) in
     user ← prisma.user.findUnique db userId;
     match user with
     | None =>
         Ok (res_json 404 (VObj [("error", VStr "Usuário não encontrado")]),
             db)
     | Some _ =>
         '(_, db') ← prisma.user.delete db userId;
         Ok (res_end 204, db')
     end)
    errorHandler.

(** [POST /stores] *)
Definition post_stores (db : DB) (req : request) : response * DB :=
  try_catch db
    (let name := get "name" (req_body req) in
     let userId := get "userId" (req_body req) in
     if falsy name || falsy userId then
       Ok (res_json 400
             (VObj [("error", VStr "Campos obrigatórios ausentes");
                    ("detail", VStr "name e userId são obrigatórios")]),
           db)
     else
       userExists ← prisma.user.findUnique db (Number userId);
       match userExists with
       | None =>
           Ok (res_json 404
                 (VObj [("error", VStr "Usuário não encontrado")]), db)
       | Some _ =>
           '(store, user, db') ←
             prisma.store.create db name (Number userId);
           Ok (res_json 201
                 (VObj (store_json store ++
                        [("user", VObj (user_json user))])),
               db')
       end)
    errorHandler.

(** [GET /stores/:id] *)
Definition get_stores_id (db : DB) (req : request) : response * DB :=
  try_catch db
    (store ← prisma.store.findUnique db (Number (VStr (params_id req)));
     match store with
     | None =>
         Ok (res_json 404 (VObj [("error", VStr "Loja não encontrada")]), db)
     | Some (s, user, products) =>
         Ok (res_json 200
               (VObj (store_json s ++
                 [("user",
                   from_option
                     (fun u => VObj (select ["id"; "name"; "email";
                                             "createdAt"; "updatedAt"]
                                            (user_json u)))
                     VNull user);
                  ("products", VArr (VObj ∘ product_json <$> products))])),
             db)
     end)
    errorHandler.

(** [PUT /stores/:id] *)
Definition put_stores_id (db : DB) (req : request) : response * DB :=
  try_catch db
    (let name := get "name" (req_body req) in
     let userId := get "userId" (req_body req) in
     '(store, db') ←
       prisma.store.update db (Number (VStr (params_id req)))
         name
         (if truthy userId then VNum (Number userId) else VUndefined);
     Ok (res_json 200 (VObj (store_json store)), db'))
    (fun e =>
       if code_is "P2025" e then
         res_json 404 (VObj [("error", VStr "Loja não encontrada")])
       else res_json 400 (VObj [("error", VStr (message e))])).

(** [DELETE /stores/:id] *)
Definition delete_stores_id (db : DB) (req : request) : response * DB :=
  try_catch db
    ('(_, db') ← prisma.store.delete db (Number (VStr (params_id req)));
     Ok (res_end 204, db'))
    (fun e =>
       if code_is "P2025" e then
         res_json 404 (VObj [("error", VStr "Loja não encontrada")])
       else res_json 400 (VObj [("error", VStr (message e))])).

(** [POST /products]; [now] is the time [new Date()] reads in the handler
    and [db_now] the time of the database when the row is inserted. *)
Definition post_products (now db_now : Z) (db : DB) (req : request)
  : response * DB :=
  try_catch db
    (let name := get "name" (req_body req) in
     let price := get "price" (req_body req) in
     let storeId := get "storeId" (req_body req) in
     '(product, db') ←
       prisma.product.create db_now db name (Number price) (Number storeId)
         now;
     Ok (res_json 201 (VObj (product_json product)), db'))
    (fun e => res_json 400 (VObj [("error", VStr (message e))])).

(** [GET /products] *)
Definition get_products (db : DB) (_req : request) : response * DB :=
  try_catch db
    (products ← prisma.product.findMany db;
     Ok (res_json 200
           (VArr ((fun '(p, store) =>
                     VObj (product_json p ++
                       [("store",
                         from_option
                           (fun '(s, user) =>
                              VObj (store_json s ++
                                [("user",
                                  from_option (VObj ∘ user_json) VNull user)]))
                           VNull store)]))
                  <$> products)),
         db))
    (fun e => res_json 400 (VObj [("error", VStr (message e))])).

(** [PUT /products/:id] *)
Definition put_products_id (db : DB) (req : request) : response * DB :=
  try_catch db
    (let name := get "name" (req_body req) in
     let price := get "price" (req_body req) in
     let storeId := get "storeId" (req_body req) in
     '(product, db') ←
       prisma.product.update db (Number (VStr (params_id req)))
         name
         (if truthy price then VNum (Number price) else VUndefined)
         (if truthy storeId then VNum (Number storeId) else VUndefined);
     Ok (res_json 200 (VObj (product_json product)), db'))
    (fun e =>
       if code_is "P2025" e then
         res_json 404 (VObj [("error", VStr "Produto não encontrado")])
       else res_json 400 (VObj [("error", VStr (message e))])).

(** [DELETE /products/:id] *)
Definition delete_products_id (db : DB) (req : request) : response * DB :=
  try_catch db
    ('(_, db') ← prisma.product.delete db (Number (VStr (params_id req)));
     Ok (res_end 204, db'))
    (fun e =>
       if code_is "P2025" e then
         res_json 404 (VObj [("error", VStr "Produto não encontrado")])
       else res_json 400 (VObj [("error", VStr (message e))])).

(** [GET /status] *)
Definition get_status (db : DB) (_req : request) : response * DB :=
  (res_json 200 (VObj [("message", VStr "API Online")]), db).

End App.

(** A database and requests to run the handlers on. *)

(** U+00A0 NO-BREAK SPACE, by its UTF-8 bytes. *)
Definition no_break_space : string :=
  String (ascii_of_N 194) (String (ascii_of_N 160) "").

Definition ana : User :=
  {| u_name := "Ana"; u_email := "ana@loja.com"; u_password := "s3gredo";
     u_createdAt := 1000; u_updatedAt := 1000 |}.

Definition bia : User :=
  {| u_name := "Bia"; u_email := "bia@loja.com"; u_password := "abc123";
     u_createdAt := 1500; u_updatedAt := 1500 |}.

Definition sample_db : DB :=
  {| users := {[ 1 := ana; 2 := bia ]};
     stores := {[ 1 := {| s_name := "Loja da Ana"; s_userId := 1 |};
                  2 := {| s_name := "Loja da Bia"; s_userId := 2 |} ]};
     products :=
       {[ 1 := {| p_name := "Caneta"; p_price := Integer 3; p_storeId := 1;
                  p_createdAt := 2000; p_updatedAt := 2000 |};
          2 := {| p_name := "Caderno"; p_price := Integer 20; p_storeId := 1;
                  p_createdAt := 3000; p_updatedAt := 3000 |};
          3 := {| p_name := "Mochila"; p_price := Integer 90; p_storeId := 2;
                  p_createdAt := 2500; p_updatedAt := 2500 |} ]};
     user_seq := 2; store_seq := 2; product_seq := 3 |}.

Definition empty_db : DB :=
  {| users := ∅; stores := ∅; products := ∅;
     user_seq := 0; store_seq := 0; product_seq := 0 |}.

(** ** The routes *)

(** The routes the application registers, [app.METHOD(path, handler)]. *)
Inductive route : Set :=
| GET_root
| POST_users
| GET_users
| DELETE_users_id
| POST_stores
| GET_stores_id
| PUT_stores_id
| DELETE_stores_id
| POST_products
| GET_products
| PUT_products_id
| DELETE_products_id
| GET_status.

(** The application: the handler registered for a route, run with
    [process.env.NODE_ENV] as given, at time [now] of the server and time
    [db_now] of the database. *)
Definition app (NODE_ENV : option string) (now db_now : Z) (r : route)
  : DB -> request -> response * DB :=
  match r with
  | GET_root => get_root
  | POST_users => post_users db_now
  | GET_users => get_users NODE_ENV
  | DELETE_users_id => delete_users_id NODE_ENV
  | POST_stores => post_stores NODE_ENV
  | GET_stores_id => get_stores_id NODE_ENV
  | PUT_stores_id => put_stores_id
  | DELETE_stores_id => delete_stores_id
  | POST_products => post_products now db_now
  | GET_products => get_products
  | PUT_products_id => put_products_id
  | DELETE_products_id => delete_products_id
  | GET_status => get_status
  end.

(** The databases the application can be in: it starts empty and changes
    only through requests. *)
Inductive reachable : DB -> Prop :=
| reachable_start : reachable empty_db
| reachable_request NODE_ENV now db_now r db req :
    reachable db -> reachable (app NODE_ENV now db_now r db req).2.

(** The invariants of the data model: emails are unique, every store has
    an existing owner, every product an existing store, and no key is
    ahead of its sequence. *)
Record db_ok (db : DB) : Prop := {
  ok_email : forall i j u v,
    users db !! i = Some u -> users db !! j = Some v ->
    u_email u = u_email v -> i = j;
  ok_owner : forall i s,
    stores db !! i = Some s -> is_Some (users db !! s_userId s);
  ok_store : forall i p,
    products db !! i = Some p -> is_Some (stores db !! p_storeId p);
  ok_user_seq : forall i, is_Some (users db !! i) -> i <= user_seq db;
  ok_store_seq : forall i, is_Some (stores db !! i) -> i <= store_seq db;
  ok_product_seq :
    forall i, is_Some (products db !! i) -> i <= product_seq db
}.

(** ** Vocabulary of the statements *)

(** The answers the handlers give when they refuse a request. *)
Definition missing_fields_response : response :=
  {| status := 400;
     body := Some (VObj [("error",
       VStr "Campos obrigatórios ausentes (name, email, password)")]) |}.

Definition invalid_email_response : response :=
  {| status := 400;
     body := Some (VObj [("error", VStr "Email em formato inválido")]) |}.

Definition store_not_found_response : response :=
  {| status := 404;
     body := Some (VObj [("error", VStr "Loja não encontrada")]) |}.

Definition user_not_found_response : response :=
  {| status := 404;
     body := Some (VObj [("error", VStr "Usuário não encontrado")]) |}.

(** The white space of JavaScript, by code point: TAB, LF, VT, FF, CR,
    SPACE, NO-BREAK SPACE, OGHAM SPACE MARK, EN QUAD to HAIR SPACE, LINE
    SEPARATOR, PARAGRAPH SEPARATOR, NARROW NO-BREAK SPACE, MEDIUM
    MATHEMATICAL SPACE, IDEOGRAPHIC SPACE and the byte order mark. *)
Definition white_space : list N :=
  [9; 10; 11; 12; 13; 32; 160; 5760;
   8192; 8193; 8194; 8195; 8196; 8197; 8198; 8199; 8200; 8201; 8202;
   8232; 8233; 8239; 8287; 12288; 65279]%N.

(** A non-empty run of code units none of which is white space. *)
Definition solid (s : list N) : Prop :=
  s <> [] /\ Forall (fun c => c ∉ white_space) s.

(** The shape asked of an email, in the words of the specification: it
    contains an [@] and, after it, a domain with a dot; around them are
    non-empty runs without white space. *)
Definition well_formed_email (s : list N) : Prop :=
  exists a b c,
    s = (a ++ 64%N :: b ++ 46%N :: c)%list /\
    solid a /\ solid b /\ solid c.

(** The integers a 32-bit integer column can hold.  The tables of the
    model are keyed by any integer; the database looks a key up only when
    it is one of these, so what is said of an identifier that no row has
    is said of these. *)
Definition int32 (n : Z) : Prop := -2147483648 <= n <= 2147483647.

(** The owner as [GET /stores/:id] shows it. *)
Definition owner_view (r : Z * User) : value :=
  VObj [("id", VNum (Int r.1));
        ("name", VStr (u_name r.2));
        ("email", VStr (u_email r.2));
        ("createdAt", VNum (Int (u_createdAt r.2)));
        ("updatedAt", VNum (Int (u_updatedAt r.2)))].

(** The body without the property [k]. *)
Definition without (k : string) (o : object) : object :=
  List.filter (fun kv => negb (String.eqb kv.1 k)) o.

(** The other answers of refusal. *)
Definition missing_store_fields_response : response :=
  {| status := 400;
     body := Some (VObj [("error", VStr "Campos obrigatórios ausentes");
                         ("detail",
                          VStr "name e userId são obrigatórios")]) |}.

Definition product_not_found_response : response :=
  {| status := 404;
     body := Some (VObj [("error", VStr "Produto não encontrado")]) |}.

(** A store with its owner embedded, [include: { user: true }]. *)
Definition store_with_user (s : Z * Store) (u : Z * User) : value :=
  VObj (store_json s ++ [("user", VObj (user_json u))]).

(** A product with its store and that store's owner embedded,
    [include: { store: { include: { user: true } } }]. *)
Definition product_with_store (p : Z * Product) (s : Z * Store)
    (u : Z * User) : value :=
  VObj (product_json p ++ [("store", store_with_user s u)]).

(** The status codes the handler of a route sends: the ones written in its
    body and, where its [catch] block calls [errorHandler], the four of
    the error mapper. *)
Definition statuses (r : route) : list Z :=
  match r with
  | GET_root | GET_status => [200]
  | POST_users => [201; 400; 409; 500]
  | GET_users => [200; 409; 404; 400; 500]
  | DELETE_users_id => [204; 404; 409; 400; 500]
  | POST_stores => [201; 400; 404; 409; 500]
  | GET_stores_id => [200; 404; 409; 400; 500]
  | PUT_stores_id | PUT_products_id => [200; 404; 400]
  | DELETE_stores_id | DELETE_products_id => [204; 404; 400]
  | POST_products => [201; 400]
  | GET_products => [200; 400]
  end.

(** The routes whose handlers only read from the database. *)
Definition reads_only (r : route) : bool :=
  match r with
  | GET_root | GET_users | GET_stores_id | GET_products | GET_status => true
  | _ => false
  end.

(** A product as [GET /products] shows it: its columns and, embedded, its
    store with that store's owner; [null] where the row referred to does not
    exist. *)
Definition product_view (db : DB) (p : Z * Product) : value :=
  VObj (product_json p ++
    [("store",
      from_option
        (fun s : Store =>
           VObj (store_json (p_storeId p.2, s) ++
             [("user",
               from_option (fun u : User => VObj (user_json (s_userId s, u)))
                           VNull (users db !! s_userId s))]))
        VNull (stores db !! p_storeId p.2))]).

(** What every answer of a handler looks like, for a list of allowed status
    codes and the database [db] the request found: the status is an allowed
    one; the answer has no body exactly when the status is 204; and a
    status of 400 or more comes with a body whose [error] property is a
    string, and with the database unchanged. *)
Definition well_shaped (allowed : list Z) (db : DB) (out : response * DB)
  : Prop :=
  In (status out.1) allowed /\
  (status out.1 = 204 <-> body out.1 = None) /\
  (400 <= status out.1 ->
     out.2 = db /\
     exists msg,
       from_option (property "error") VUndefined (body out.1) = VStr msg).

(** * Properties *)

Local Open Scope list_scope.

(** ** The coercions and the pattern on examples *)

Example Number_examples :
  Number (VStr "42") = Int 42 /\ Number (VStr " -7 ") = Int (-7) /\
  Number (VStr "") = Int 0 /\ Number (VStr "abc") = NaN /\
  Number VUndefined = NaN /\ Number VNull = Int 0 /\
  Number (VArr [VNum (Int 5)]) = Int 5 /\ Number (VArr []) = Int 0 /\
  to_string (VArr [VNum (Int 1); VNull; VStr "x"]) = "1,,x".
Proof. split_and!; vm_compute; reflexivity. Qed.

Example string_to_number_examples :
  string_to_number "0x1f" = Int 31 /\ string_to_number "0b101" = Int 5 /\
  string_to_number "1.0" = Int 1 /\ string_to_number "1e3" = Int 1000 /\
  string_to_number "-0x1" = NaN /\ string_to_number "12abc" = NaN /\
  string_to_number ".5" = Frac false 1 1 /\
  string_to_number "9.99" = Frac false 5623870034678907 49 /\
  string_to_number "0.1" = Frac false 3602879701896397 55 /\
  string_to_number "9007199254740993" = Int 9007199254740992 /\
  string_to_number "99999999999" = Int 99999999999 /\
  string_to_number "1e400" = Infinity false /\
  string_to_number "-Infinity" = Infinity true /\
  string_to_number (no_break_space +:+ "7" +:+ no_break_space) = Int 7.
Proof. split_and!; vm_compute; reflexivity. Qed.

Example number_to_string_examples :
  number_to_string (Int 42) = "42" /\
  number_to_string (Int (-7)) = "-7" /\
  number_to_string (Frac false 3602879701896397 55) = "0.1" /\
  number_to_string (Frac false 5623870034678907 49) = "9.99" /\
  number_to_string (Frac true 3 1) = "-1.5" /\
  number_to_string (Int (10 ^ 21)) = "1e+21" /\
  number_to_string (Int 123456789012345680000) = "123456789012345680000" /\
  number_to_string (Frac false 1 1074) = "5e-324" /\
  number_to_string (string_to_number "1e-7") = "1e-7" /\
  number_to_string (string_to_number "0.000001") = "0.000001" /\
  number_to_string (string_to_number "1.7976931348623157e308") =
    "1.7976931348623157e+308" /\
  number_to_string (Infinity true) = "-Infinity".
Proof. split_and!; vm_compute; reflexivity. Qed.

Example truthy_examples :
  truthy (VNum (Int 0)) = false /\ truthy (VStr "") = false /\
  truthy VNull = false /\ truthy (VNum NaN) = false /\
  truthy (VStr "0") = true /\ truthy (VArr []) = true.
Proof. repeat split; reflexivity. Qed.

Example email_pattern_examples :
  test_anchored email_pattern (VStr "a@a.com") = true /\
  test_anchored email_pattern (VStr "a@b") = false /\
  test_anchored email_pattern (VStr "a b@c.d") = false /\
  code_units ("a" +:+ no_break_space +:+ "b@c.d") =
    [97; 160; 98; 64; 99; 46; 100]%N /\
  test_anchored email_pattern (VStr ("a" +:+ no_break_space +:+ "b@c.d")) =
    false /\
  test_anchored email_pattern (VStr "@b.c") = false /\
  test_anchored email_pattern (VStr "a@@b..c") = true /\
  test_anchored email_pattern (VArr [VStr "x@y.z"]) = true /\
  test_anchored email_pattern (VNum (Int 5)) = false.
Proof. repeat split; reflexivity. Qed.

Example run_get_store :
  (get_stores_id None sample_db {| params_id := "1"; req_body := [] |}).1 =
  {| status := 200;
     body := Some (VObj
       [("id", VNum (Int 1)); ("name", VStr "Loja da Ana");
        ("userId", VNum (Int 1));
        ("user", VObj [("id", VNum (Int 1)); ("name", VStr "Ana");
                       ("email", VStr "ana@loja.com");
                       ("createdAt", VNum (Int 1000));
                       ("updatedAt", VNum (Int 1000))]);
        ("products",
         VArr [VObj [("id", VNum (Int 2)); ("name", VStr "Caderno");
                     ("price", VNum (Int 20)); ("storeId", VNum (Int 1));
                     ("createdAt", VNum (Int 3000));
                     ("updatedAt", VNum (Int 3000))];
               VObj [("id", VNum (Int 1)); ("name", VStr "Caneta");
                     ("price", VNum (Int 3)); ("storeId", VNum (Int 1));
                     ("createdAt", VNum (Int 2000));
                     ("updatedAt", VNum (Int 2000))]])]) |}.
Proof. vm_compute. reflexivity. Qed.

(** ** The error mapper *)

Lemma code_is_true c e : code_is c e = true <-> code e = Some c.
Proof. unfold code_is. apply bool_decide_eq_true. Qed.

Lemma code_is_false c e : code_is c e = false <-> code e <> Some c.
Proof. unfold code_is. apply bool_decide_eq_false. Qed.

(** C1.  The shared error mapper answers a unique-constraint violation
    (P2002) with 409 and the violated columns, joined, as the detail; a
    record not found (P2025) with 404 and a fixed message; a foreign-key
    violation (P2003) with 400 and the detail that the referenced id does
    not exist; and any other error with 500 and a fixed message, to which
    the error's own message is added exactly when [NODE_ENV] is
    "development", hence never in production mode. *)
Theorem errorHandler_table (NODE_ENV : option string) (e : PrismaError) :
  (code e = Some "P2002" ->
     errorHandler NODE_ENV e =
       {| status := 409;
          body := Some (VObj (("error", VStr "Conflito de dados únicos") ::
                   from_option
                     (fun cols => [("detail", VStr (join ", " cols))])
                     [] (meta e ≫= target))) |}) /\
  (code e = Some "P2025" ->
     errorHandler NODE_ENV e =
       {| status := 404;
          body := Some (VObj [("error", VStr "Recurso não encontrado")]) |}) /\
  (code e = Some "P2003" ->
     errorHandler NODE_ENV e =
       {| status := 400;
          body := Some (VObj
            [("error", VStr "Violação de restrição de chave estrangeira");
             ("detail", VStr "O ID referenciado não existe")]) |}) /\
  (code e <> Some "P2002" -> code e <> Some "P2025" ->
   code e <> Some "P2003" ->
     status (errorHandler NODE_ENV e) = 500 /\
     (NODE_ENV = Some "development" ->
        body (errorHandler NODE_ENV e) =
          Some (VObj [("error", VStr "Erro interno do servidor");
                      ("detail", VStr (message e))])) /\
     (NODE_ENV <> Some "development" ->
        body (errorHandler NODE_ENV e) =
          Some (VObj [("error", VStr "Erro interno do servidor")])) /\
     (NODE_ENV = Some "production" ->
        from_option (has_property "detail") false
                    (body (errorHandler NODE_ENV e)) = false)).
Proof.
  unfold errorHandler. repeat split.
  - intros H. rewrite (proj2 (code_is_true _ _) H).
    unfold res_json, meta_target_joined. f_equal.
    destruct (meta e) as [[[cols|]]|]; reflexivity.
  - intros H.
    rewrite (proj2 (code_is_false "P2002" e)) by (rewrite H; discriminate).
    rewrite (proj2 (code_is_true _ _) H). reflexivity.
  - intros H.
    rewrite (proj2 (code_is_false "P2002" e)) by (rewrite H; discriminate).
    rewrite (proj2 (code_is_false "P2025" e)) by (rewrite H; discriminate).
    rewrite (proj2 (code_is_true _ _) H). reflexivity.
  - rewrite !(proj2 (code_is_false _ e)) by assumption. reflexivity.
  - intros ->. rewrite !(proj2 (code_is_false _ e)) by assumption. reflexivity.
  - intros Hne. rewrite !(proj2 (code_is_false _ e)) by assumption.
    rewrite bool_decide_eq_false_2 by assumption. reflexivity.
  - intros ->. rewrite !(proj2 (code_is_false _ e)) by assumption. reflexivity.
Qed.

Lemma errorHandler_table_witness :
  errorHandler (Some "production") (unique_violation ["email"; "name"]) =
    {| status := 409;
       body := Some (VObj [("error", VStr "Conflito de dados únicos");
                           ("detail", VStr "email, name")]) |} /\
  status (errorHandler (Some "production")
            (record_not_found "prisma.user.delete()")) = 404 /\
  status (errorHandler (Some "production")
            (foreign_key_violation "userId")) = 400 /\
  errorHandler (Some "production")
     (validation_error "prisma.user.findUnique()") =
    {| status := 500;
       body := Some (VObj [("error", VStr "Erro interno do servidor")]) |}.
Proof.
  split; [|split; [|split]].
  - apply (proj1 (errorHandler_table (Some "production")
                    (unique_violation ["email"; "name"]))). reflexivity.
  - rewrite (proj1 (proj2 (errorHandler_table (Some "production")
                    (record_not_found "prisma.user.delete()"))));
      reflexivity.
  - rewrite (proj1 (proj2 (proj2 (errorHandler_table (Some "production")
                    (foreign_key_violation "userId")))));
      reflexivity.
  - destruct (proj2 (proj2 (proj2 (errorHandler_table (Some "production")
                    (validation_error "prisma.user.findUnique()")))))
      as (Hs & _ & Hb & _); [discriminate..|].
    specialize (Hb ltac:(discriminate)).
    destruct (errorHandler _ _) as [s b]. simpl in *. congruence.
Defined.

(** ** The matcher decides the meaning of a pattern *)

Lemma Matches_Void_inv s : ~ Matches Void s.
Proof. inversion 1. Qed.

Lemma Matches_Eps_inv s : Matches Eps s <-> s = [].
Proof. split; [inversion 1; reflexivity | intros ->; constructor]. Qed.

Lemma Matches_Chr_inv c s : Matches (Chr c) s <-> s = [c].
Proof. split; [inversion 1; reflexivity | intros ->; constructor]. Qed.

Lemma Matches_NonSpace_inv s :
  Matches NonSpace s <-> exists c, s = [c] /\ is_space c = false.
Proof.
  split.
  - inversion 1; subst. eauto.
  - intros (c & -> & Hc). by constructor.
Qed.

Lemma Matches_Alt_inv r1 r2 s :
  Matches (Alt r1 r2) s <-> Matches r1 s \/ Matches r2 s.
Proof.
  split.
  - inversion 1; subst; auto.
  - intros [H|H]; [by apply MAltL | by apply MAltR].
Qed.

Lemma Matches_Seq_inv r1 r2 s :
  Matches (Seq r1 r2) s <->
  exists s1 s2, s = s1 ++ s2 /\ Matches r1 s1 /\ Matches r2 s2.
Proof.
  split.
  - inversion 1; subst. eauto.
  - intros (s1 & s2 & -> & H1 & H2). by constructor.
Qed.

Lemma Matches_Star_cons r c s :
  Matches (Star r) (c :: s) ->
  exists s1 s2, s = s1 ++ s2 /\ Matches r (c :: s1) /\ Matches (Star r) s2.
Proof.
  intros H. remember (Star r) as r' eqn:Hr. remember (c :: s) as t eqn:Ht.
  revert s Ht.
  induction H as [| | | | | | |r0 s1 s2 H1 _ H2 IH2]; intros u Hu;
    try discriminate.
  injection Hr as ->. destruct s1 as [|c1 s1]; simpl in Hu.
  - by apply IH2.
  - injection Hu as -> <-. eauto.
Qed.

Lemma nullable_spec r : nullable r = true <-> Matches r [].
Proof.
  split.
  - induction r as [| | | |r1 IH1 r2 IH2|r1 IH1 r2 IH2|r IH]; simpl;
      try discriminate; intros H.
    + constructor.
    + apply orb_true_iff in H as [H|H]; [apply MAltL | apply MAltR]; auto.
    + apply andb_true_iff in H as [H1 H2].
      change (@nil N) with (@nil N ++ []). constructor; auto.
    + constructor.
  - intros H. remember (@nil N) as s eqn:Hs.
    induction H as [| | | r1 r2 s H IH | r1 r2 s H IH
                   | r1 r2 s1 s2 H1 IH1 H2 IH2 | |]; simpl;
      try discriminate; try reflexivity.
    + rewrite IH by assumption. reflexivity.
    + rewrite IH by assumption. apply orb_true_r.
    + apply app_eq_nil in Hs as [-> ->]. rewrite IH1, IH2; reflexivity.
Qed.

Lemma deriv_spec c r s : Matches (deriv c r) s <-> Matches r (c :: s).
Proof.
  revert s.
  induction r as [| |c'| |r1 IH1 r2 IH2|r1 IH1 r2 IH2|r IH]; intros s; simpl.
  - split; intros H; by apply Matches_Void_inv in H.
  - split; intros H; [by apply Matches_Void_inv in H|].
    by apply Matches_Eps_inv in H.
  - rewrite Matches_Chr_inv. destruct (N.eqb_spec c c') as [->|Hne].
    + rewrite Matches_Eps_inv. split; [by intros ->|by intros [= ->]].
    + split; [intros H; by apply Matches_Void_inv in H|].
      intros [= -> ->]. done.
  - rewrite Matches_NonSpace_inv. destruct (is_space c) eqn:Hc.
    + split; [intros H; by apply Matches_Void_inv in H|].
      intros (c0 & [= -> ->] & Hc0). congruence.
    + rewrite Matches_Eps_inv. split; [intros ->; eauto|].
      by intros (c0 & [= -> ->] & _).
  - rewrite !Matches_Alt_inv, IH1, IH2. reflexivity.
  - assert (Hseq : Matches (Seq (deriv c r1) r2) s <->
                   exists s1 s2, s = s1 ++ s2 /\ Matches r1 (c :: s1) /\
                                 Matches r2 s2).
    { rewrite Matches_Seq_inv. by setoid_rewrite IH1. }
    rewrite (Matches_Seq_inv r1 r2).
    destruct (nullable r1) eqn:Hn.
    + rewrite Matches_Alt_inv, Hseq, IH2. split.
      * intros [(s1 & s2 & -> & H1 & H2)|H2].
        -- exists (c :: s1), s2. auto.
        -- exists [], (c :: s). split; [done|]. split; [|done].
           by apply nullable_spec.
      * intros (s1 & s2 & Hs & H1 & H2). destruct s1 as [|c1 s1]; simpl in Hs.
        -- right. by rewrite Hs.
        -- injection Hs as -> ->. left. eauto.
    + rewrite Hseq. split.
      * intros (s1 & s2 & -> & H1 & H2). exists (c :: s1), s2. auto.
      * intros (s1 & s2 & Hs & H1 & H2). destruct s1 as [|c1 s1]; simpl in Hs.
        -- apply nullable_spec in H1. congruence.
        -- injection Hs as -> ->. eauto.
  - rewrite Matches_Seq_inv. setoid_rewrite IH. split.
    + intros (s1 & s2 & -> & H1 & H2).
      change (c :: s1 ++ s2) with ((c :: s1) ++ s2). by constructor.
    + apply Matches_Star_cons.
Qed.

Lemma matches_spec r s : matches r s = true <-> Matches r s.
Proof.
  revert r. induction s as [|c s IH]; intros r; simpl.
  - apply nullable_spec.
  - rewrite IH. apply deriv_spec.
Qed.

(** The class [\s] is the white space of the language. *)
Lemma is_space_white_space c : is_space c = true <-> c ∈ white_space.
Proof.
  unfold is_space, white_space.
  rewrite !elem_of_cons, elem_of_nil.
  rewrite !orb_true_iff, !andb_true_iff, !N.leb_le, !N.eqb_eq. lia.
Qed.

Lemma is_space_false c : is_space c = false <-> c ∉ white_space.
Proof.
  rewrite <- is_space_white_space. destruct (is_space c); split; congruence.
Qed.

Lemma Matches_Star_NonSpace s :
  Matches (Star NonSpace) s <-> Forall (fun c => c ∉ white_space) s.
Proof.
  split.
  - intros H. remember (Star NonSpace) as r eqn:Hr.
    induction H as [| | | | | | |r0 s1 s2 H1 _ H2 IH2]; try discriminate.
    + constructor.
    + injection Hr as ->. apply Matches_NonSpace_inv in H1 as (c & -> & Hc).
      apply is_space_false in Hc. constructor; auto.
  - induction 1 as [|c s Hc _ IH].
    + constructor.
    + change (c :: s) with ([c] ++ s).
      constructor; [constructor; by apply is_space_false|done].
Qed.

Lemma Matches_Plus_NonSpace s : Matches (Plus NonSpace) s <-> solid s.
Proof.
  unfold Plus, solid. rewrite Matches_Seq_inv. split.
  - intros (s1 & s2 & -> & H1 & H2).
    apply Matches_NonSpace_inv in H1 as (c & -> & Hc).
    apply is_space_false in Hc.
    apply Matches_Star_NonSpace in H2. split; [done|]. by constructor.
  - intros [Hne H]. destruct H as [|c s Hc H]; [done|].
    exists [c], s. split; [done|].
    split; [constructor; by apply is_space_false|].
    by apply Matches_Star_NonSpace.
Qed.

(** What [/^\S+@\S+\.\S+$/] accepts: three non-empty runs free of white
    space, with an [@] after the first and a dot after the second. *)
Lemma email_pattern_spec (s : list N) :
  matches email_pattern s = true <-> well_formed_email s.
Proof.
  unfold well_formed_email.
  rewrite matches_spec. unfold email_pattern. split.
  - intros H.
    apply Matches_Seq_inv in H as (a & ? & -> & Ha & H).
    apply Matches_Seq_inv in H as (? & ? & -> & ->%Matches_Chr_inv & H).
    apply Matches_Seq_inv in H as (b & ? & -> & Hb & H).
    apply Matches_Seq_inv in H as (? & c & -> & ->%Matches_Chr_inv & Hc).
    apply Matches_Plus_NonSpace in Ha, Hb, Hc.
    exists a, b, c. done.
  - intros (a & b & c & -> & Ha & Hb & Hc).
    apply Matches_Plus_NonSpace in Ha, Hb, Hc.
    constructor; [done|].
    change (64%N :: b ++ 46%N :: c) with ([64%N] ++ b ++ [46%N] ++ c).
    repeat (constructor; try done).
Qed.

(** ** Responses on the wire *)

Lemma wire_user_json r : wire (VObj (user_json r)) = VObj (user_json r).
Proof. reflexivity. Qed.

Lemma wire_store_json r : wire (VObj (store_json r)) = VObj (store_json r).
Proof. reflexivity. Qed.

Lemma wire_product_json r :
  wire (VObj (product_json r)) = VObj (product_json r).
Proof. reflexivity. Qed.

Lemma wire_users us :
  wire (VArr (VObj ∘ user_json <$> us)) = VArr (VObj ∘ user_json <$> us).
Proof.
  simpl. f_equal. rewrite <- list_fmap_compose.
  apply list_fmap_ext. intros _ r _. reflexivity.
Qed.

Lemma wire_products ps :
  wire (VArr (VObj ∘ product_json <$> ps))
  = VArr (VObj ∘ product_json <$> ps).
Proof.
  simpl. f_equal. rewrite <- list_fmap_compose.
  apply list_fmap_ext. intros _ r _. reflexivity.
Qed.

(** ** [POST /users] *)

Lemma post_users_falsy now db req :
  falsy (get "name" (req_body req)) || falsy (get "email" (req_body req))
    || falsy (get "password" (req_body req)) = true ->
  post_users now db req = (missing_fields_response, db).
Proof. intros H. unfold post_users. rewrite H. reflexivity. Qed.

Lemma post_users_truthy now db req :
  truthy (get "name" (req_body req)) = true ->
  truthy (get "email" (req_body req)) = true ->
  truthy (get "password" (req_body req)) = true ->
  post_users now db req =
    if test_anchored email_pattern (get "email" (req_body req)) then
      match prisma.user.create now db (get "name" (req_body req))
              (get "email" (req_body req)) (get "password" (req_body req)) with
      | Ok (novoUsuario, db') =>
          ({| status := 201; body := Some (VObj (user_json novoUsuario)) |},
           db')
      | Throw error =>
          (if code_is "P2002" error then
             res_json 409
               (VObj [("error", VStr "E-mail já cadastrado");
                      ("detail",
                       js_or (meta_value error) (VStr (message error)))])
           else
             res_json 500 (VObj [("error", VStr "Erro ao criar usuário");
                                 ("detail", VStr (message error))]), db)
      end
    else (invalid_email_response, db).
Proof.
  intros Hn He Hp. unfold post_users, falsy. rewrite Hn, He, Hp. simpl.
  destruct (test_anchored _ _); [|reflexivity]. simpl.
  destruct (prisma.user.create _ _ _ _ _) as [[u db']|e]; reflexivity.
Qed.

(** What [prisma.user.create] returns or throws. *)
Lemma user_create_cases now db name email password :
  (exists n e p id,
     name = VStr n /\ email = VStr e /\ password = VStr p /\
     id = user_seq db + 1 /\
     (forall i u, users db !! i = Some u -> u_email u <> e) /\
     let row := {| u_name := n; u_email := e; u_password := p;
                   u_createdAt := now; u_updatedAt := now |} in
     prisma.user.create now db name email password =
       Ok ((id, row), with_users db (<[id := row]> (users db)) id)) \/
  (exists e i u,
     email = VStr e /\ users db !! i = Some u /\ u_email u = e /\
     prisma.user.create now db name email password =
       Throw (unique_violation ["email"])) \/
  prisma.user.create now db name email password =
    Throw (validation_error "prisma.user.create()").
Proof.
  unfold prisma.user.create.
  destruct name as [| | | |n| |]; auto.
  destruct email as [| | | |e| |]; auto.
  destruct password as [| | | |p| |]; auto.
  case_bool_decide as Hex.
  - right; left. apply map_Exists_lookup in Hex as (i & u & Hi & Hu). eauto 10.
  - left. exists n, e, p, (user_seq db + 1). repeat split; try done.
    intros i u Hi Hu. apply Hex. apply map_Exists_lookup. eauto.
Qed.

(** C3.  A [POST /users] whose body lacks one of [name], [email] and
    [password], or has the empty string for it, is answered with status 400
    and leaves the database as it was: no user is created. *)
Theorem post_users_missing_field now db req k :
  k = "name" \/ k = "email" \/ k = "password" ->
  get k (req_body req) = VUndefined \/ get k (req_body req) = VStr "" ->
  status (post_users now db req).1 = 400 /\
  (post_users now db req).2 = db.
Proof.
  intros Hk Hv. rewrite post_users_falsy; [done|].
  assert (Hf : falsy (get k (req_body req)) = true)
    by (destruct Hv as [-> | ->]; reflexivity).
  destruct Hk as [-> | [-> | ->]]; rewrite Hf; rewrite ?orb_true_r;
    reflexivity.
Qed.

Lemma post_users_missing_field_witness :
  status (post_users 5000 sample_db
            {| params_id := "";
               req_body := [("name", VStr "Caio"); ("email", VStr "");
                            ("password", VStr "x")] |}).1 = 400 /\
  (post_users 5000 sample_db
     {| params_id := "";
        req_body := [("name", VStr "Caio"); ("email", VStr "");
                     ("password", VStr "x")] |}).2 = sample_db.
Proof.
  apply (post_users_missing_field 5000 sample_db _ "email").
  - right; left. reflexivity.
  - right. reflexivity.
Defined.

Lemma truthy_VStr s : truthy (VStr s) = true <-> s <> "".
Proof. destruct s; simpl; split; congruence. Qed.

Lemma test_email_well_formed v :
  test_anchored email_pattern v = true <->
  well_formed_email (code_units (to_string v)).
Proof. apply email_pattern_spec. Qed.




(** C2.  A [POST /users] with a non-empty name, a non-empty password and a
    well-formed email that an existing user already has is answered with
    status 409, never 201, with a body that names the error and the
    violated column; no user is created. *)
Theorem post_users_duplicate_email now db req n e p i u :
  get "name" (req_body req) = VStr n -> n <> "" ->
  get "password" (req_body req) = VStr p -> p <> "" ->
  get "email" (req_body req) = VStr e ->
  test_anchored email_pattern (VStr e) = true ->
  users db !! i = Some u -> u_email u = e ->
  post_users now db req =
    ({| status := 409;
        body := Some (VObj [("error", VStr "E-mail já cadastrado");
                            ("detail",
                             VObj [("target", VArr [VStr "email"])])]) |},
     db) /\
  status (post_users now db req).1 <> 201.
Proof.
  intros Hn Hn' Hp Hp' He Ht Hi Hu.
  assert (He' : e <> "") by (intros ->; discriminate).
  assert (Hr : post_users now db req =
    ({| status := 409;
        body := Some (VObj [("error", VStr "E-mail já cadastrado");
                            ("detail",
                             VObj [("target", VArr [VStr "email"])])]) |},
     db)); [|by rewrite Hr].
  rewrite post_users_truthy by (rewrite ?Hn, ?He, ?Hp; by apply truthy_VStr).
  rewrite Hn, He, Hp, Ht. unfold prisma.user.create.
  rewrite bool_decide_eq_true_2; [reflexivity|].
  apply map_Exists_lookup. eauto.
Qed.

Lemma post_users_duplicate_email_witness :
  post_users 5000 sample_db
    {| params_id := "";
       req_body := [("name", VStr "Outra Ana"); ("email", VStr "ana@loja.com");
                    ("password", VStr "x")] |} =
    ({| status := 409;
        body := Some (VObj [("error", VStr "E-mail já cadastrado");
                            ("detail",
                             VObj [("target", VArr [VStr "email"])])]) |},
     sample_db).
Proof.
  apply (post_users_duplicate_email 5000 sample_db
           {| params_id := "";
              req_body := [("name", VStr "Outra Ana");
                           ("email", VStr "ana@loja.com");
                           ("password", VStr "x")] |}
           "Outra Ana" "ana@loja.com" "x" 1 ana);
    try reflexivity; discriminate.
Defined.

(** ** [GET /users] *)

Lemma get_users_eq NODE_ENV db req :
  get_users NODE_ENV db req =
    ({| status := 200;
        body := Some (VArr (VObj ∘ user_json <$>
                  merge_sort id_asc (map_to_list (users db)))) |}, db).
Proof.
  unfold get_users, prisma.user.findMany. simpl. unfold res_json.
  by rewrite wire_users.
Qed.

Lemma elem_of_sorted_users db id u :
  (id, u) ∈ merge_sort id_asc (map_to_list (users db)) <->
  users db !! id = Some u.
Proof. by rewrite merge_sort_Permutation, elem_of_map_to_list. Qed.

(** C10.  The record [POST /users] returns with status 201 is the stored
    user with every column, the password included as it was received; and
    [GET /users] returns, with status 200, exactly the stored users, each
    with every column and its stored password: no field selection is
    applied on either route. *)
Theorem users_records_include_password :
  (forall now db req,
     status (post_users now db req).1 = 201 ->
     exists id u,
       body (post_users now db req).1 = Some (VObj (user_json (id, u))) /\
       users (post_users now db req).2 !! id = Some u /\
       get "password" (req_body req) = VStr (u_password u) /\
       property "password" (VObj (user_json (id, u))) = VStr (u_password u)) /\
  (forall NODE_ENV db req,
     exists us,
       get_users NODE_ENV db req =
         ({| status := 200; body := Some (VArr (VObj ∘ user_json <$> us)) |},
          db) /\
       (forall id u, (id, u) ∈ us <-> users db !! id = Some u) /\
       (forall x, x ∈ (VObj ∘ user_json <$> us) ->
          exists id u,
            users db !! id = Some u /\ x = VObj (user_json (id, u)) /\
            property "password" x = VStr (u_password u))).
Proof.
  split.
  - intros now db req Hs.
    destruct (falsy (get "name" (req_body req))
              || falsy (get "email" (req_body req))
              || falsy (get "password" (req_body req))) eqn:Hf.
    { rewrite post_users_falsy in Hs by done. discriminate. }
    apply orb_false_iff in Hf as [Hf Hp]. apply orb_false_iff in Hf as [Hn He].
    apply negb_false_iff in Hn, He, Hp.
    rewrite post_users_truthy in Hs |- * by done.
    destruct (test_anchored _ _); [|discriminate].
    destruct (user_create_cases now db (get "name" (req_body req))
                (get "email" (req_body req)) (get "password" (req_body req)))
      as [(n & e & p & id & _ & _ & Hpw & _ & _ & Hc)
         |[(? & ? & ? & _ & _ & _ & Hc)|Hc]];
      rewrite Hc in Hs |- *; [|done..].
    eexists id, _. simpl. split; [reflexivity|].
    split; [apply lookup_insert_eq|]. by rewrite Hpw.
  - intros NODE_ENV db req. eexists. split; [apply get_users_eq|].
    split; [apply elem_of_sorted_users|].
    intros x (r & -> & Hr)%list_elem_of_fmap. destruct r as [id u].
    apply elem_of_sorted_users in Hr. eauto.
Qed.

Lemma users_records_include_password_witness :
  exists id u,
    body (post_users 5000 sample_db
            {| params_id := "";
               req_body := [("name", VStr "Caio");
                            ("email", VStr "caio@loja.com");
                            ("password", VStr "pa ss")] |}).1 =
      Some (VObj (user_json (id, u))) /\
    u_password u = "pa ss".
Proof.
  destruct (proj1 users_records_include_password 5000 sample_db
              {| params_id := "";
                 req_body := [("name", VStr "Caio");
                              ("email", VStr "caio@loja.com");
                              ("password", VStr "pa ss")] |})
    as (id & u & Hb & _ & Hp & _); [reflexivity|].
  exists id, u. split; [exact Hb|]. simpl in Hp. congruence.
Defined.

Example run_get_users :
  (get_users None sample_db {| params_id := ""; req_body := [] |}).1 =
  {| status := 200;
     body := Some (VArr
       [VObj [("id", VNum (Int 1)); ("name", VStr "Ana");
              ("email", VStr "ana@loja.com"); ("password", VStr "s3gredo");
              ("createdAt", VNum (Int 1000)); ("updatedAt", VNum (Int 1000))];
        VObj [("id", VNum (Int 2)); ("name", VStr "Bia");
              ("email", VStr "bia@loja.com"); ("password", VStr "abc123");
              ("createdAt", VNum (Int 1500));
              ("updatedAt", VNum (Int 1500))]]) |}.
Proof. vm_compute. reflexivity. Qed.

(** ** [GET /stores/:id] and [DELETE /users/:id] *)

Lemma get_stores_id_absent NODE_ENV db req n :
  Number (VStr (params_id req)) = Int n ->
  stores db !! n = None ->
  get_stores_id NODE_ENV db req = (store_not_found_response, db).
Proof.
  intros Hid Hn. unfold get_stores_id, prisma.store.findUnique.
  rewrite Hid, Hn. reflexivity.
Qed.

(** C7.  A [DELETE /users/:id] whose id converts to an integer [n], as
    ["7"], ["0x7"] and ["7.0"] do, is answered with 404, and deletes
    nothing, when [n] is an identifier of the 32-bit column and no user has
    it.  When a user has it the answer is 204 with no body; the user is
    gone, the other users stay; the stores left are those of the other
    users, so a lookup of any store the user owned finds none; and the
    products left are those of the stores left. *)
Theorem delete_users_id_cascade NODE_ENV db req n :
  Number (VStr (params_id req)) = Int n ->
  (int32 n -> users db !! n = None ->
     delete_users_id NODE_ENV db req = (user_not_found_response, db)) /\
  (is_Some (users db !! n) ->
     let db' := (delete_users_id NODE_ENV db req).2 in
     (delete_users_id NODE_ENV db req).1 = {| status := 204; body := None |} /\
     users db' !! n = None /\
     (forall m, m <> n -> users db' !! m = users db !! m) /\
     (forall sid s,
        stores db' !! sid = Some s <->
        stores db !! sid = Some s /\ s_userId s <> n) /\
     (forall sid s req',
        stores db !! sid = Some s -> s_userId s = n ->
        Number (VStr (params_id req')) = Int sid ->
        get_stores_id NODE_ENV db' req' = (store_not_found_response, db')) /\
     (forall pid p,
        products db' !! pid = Some p <->
        products db !! pid = Some p /\
        forall s, stores db !! p_storeId p = Some s -> s_userId s <> n)).
Proof.
  intros Hid. unfold delete_users_id. rewrite Hid.
  unfold prisma.user.findUnique, prisma.user.delete. split.
  - intros _ Hn. rewrite Hn. reflexivity.
  - intros [u Hu]. rewrite Hu. simpl.
    assert (Hst : forall sid s,
              filter (fun r : Z * Store => s_userId r.2 <> n) (stores db)
                !! sid = Some s <->
              stores db !! sid = Some s /\ s_userId s <> n)
      by (intros; apply map_lookup_filter_Some).
    split; [reflexivity|]. split; [apply lookup_delete_eq|].
    split; [intros m Hm; by apply lookup_delete_ne|].
    split; [exact Hst|]. split.
    + intros sid s req' Hs Ho Hid'.
      apply get_stores_id_absent with sid; [done|].
      simpl. apply eq_None_not_Some. intros [s' Hs'].
      apply Hst in Hs' as [Hs' Hne]. congruence.
    + intros pid p. rewrite map_lookup_filter_Some. simpl.
      unfold product_owner. split; intros [Hp Hown]; (split; [done|]).
      * intros s Hs. rewrite Hs in Hown. simpl in Hown. congruence.
      * destruct (stores db !! p_storeId p) as [s|]; [|done].
        simpl. intros [= Heq]. by apply (Hown s).
Qed.

Lemma delete_users_id_cascade_witness :
  delete_users_id None sample_db {| params_id := "0x7"; req_body := [] |} =
    (user_not_found_response, sample_db) /\
  (delete_users_id None sample_db {| params_id := "1.0"; req_body := [] |}).1 =
    {| status := 204; body := None |} /\
  get_stores_id None
    (delete_users_id None sample_db {| params_id := "1"; req_body := [] |}).2
    {| params_id := "1"; req_body := [] |} =
    (store_not_found_response,
     (delete_users_id None sample_db {| params_id := "1"; req_body := [] |}).2).
Proof.
  split; [|split].
  - apply (delete_users_id_cascade None sample_db
             {| params_id := "0x7"; req_body := [] |} 7);
      [vm_compute; reflexivity | unfold int32; lia | reflexivity].
  - apply (delete_users_id_cascade None sample_db
             {| params_id := "1.0"; req_body := [] |} 1);
      [vm_compute; reflexivity | by eexists].
  - destruct (proj2 (delete_users_id_cascade None sample_db
                {| params_id := "1"; req_body := [] |} 1 eq_refl))
      as (_ & _ & _ & _ & H & _); [by eexists|].
    apply (H 1 {| s_name := "Loja da Ana"; s_userId := 1 |}); reflexivity.
Defined.

Example run_delete_user :
  let db' :=
    (delete_users_id None sample_db {| params_id := "1"; req_body := [] |}).2 in
  map_to_list (users db') = [(2, bia)] /\
  map_to_list (stores db') =
    [(2, {| s_name := "Loja da Bia"; s_userId := 2 |})] /\
  (map_to_list (products db')).*1 = [3].
Proof. vm_compute. auto. Qed.

#[global] Instance createdAt_desc_total : Total createdAt_desc.
Proof. intros x y. unfold createdAt_desc. lia. Qed.

#[global] Instance createdAt_desc_trans : Transitive createdAt_desc.
Proof. intros x y z. unfold createdAt_desc. lia. Qed.

Lemma select_owner r :
  VObj (select ["id"; "name"; "email"; "createdAt"; "updatedAt"] (user_json r))
  = owner_view r.
Proof. reflexivity. Qed.

Lemma products_of_spec db n :
  StronglySorted createdAt_desc (prisma.store.products_of db n) /\
  NoDup (prisma.store.products_of db n) /\
  (forall pid p,
     (pid, p) ∈ prisma.store.products_of db n <->
     products db !! pid = Some p /\ p_storeId p = n).
Proof.
  unfold prisma.store.products_of. split; [|split].
  - apply (StronglySorted_merge_sort _).
  - rewrite merge_sort_Permutation. apply NoDup_map_to_list.
  - intros pid p.
    by rewrite merge_sort_Permutation, elem_of_map_to_list,
      map_lookup_filter_Some.
Qed.

(** An error of the client that carries no code goes through the error
    mapper to its last case. *)
Lemma errorHandler_validation_error NODE_ENV call :
  errorHandler NODE_ENV (validation_error call) =
    {| status := 500;
       body := Some (VObj (("error", VStr "Erro interno do servidor") ::
                 if bool_decide (NODE_ENV = Some "development")
                 then [("detail", VStr (message (validation_error call)))]
                 else [])) |}.
Proof.
  unfold errorHandler.
  rewrite !(proj2 (code_is_false _ _)) by discriminate.
  unfold res_json. by case_bool_decide.
Qed.

(** C5, as it is stated, fails.  No store has the id [abc], which is not a
    number, and the answer is not 404: the database call throws, and the
    error mapper answers 500. *)
Lemma get_stores_id_not_a_number :
  Number (VStr "abc") = NaN /\
  get_stores_id None sample_db {| params_id := "abc"; req_body := [] |} =
    ({| status := 500;
        body := Some (VObj [("error", VStr "Erro interno do servidor")]) |},
     sample_db) /\
  status (get_stores_id None sample_db
            {| params_id := "abc"; req_body := [] |}).1 <> 404.
Proof. vm_compute. split; [reflexivity|]. split; [reflexivity|discriminate]. Qed.

(** C5, amended.  For a [GET /stores/:id] whose id converts to an integer
    [n]: when a store has that id the answer is 200 with the store, its
    owner shown by [id], [name], [email], [createdAt] and [updatedAt] and so
    without the password, and exactly the products of the store, latest
    created first; when [n] is an identifier of the 32-bit column and no
    store has it the answer is 404.  When the id is not a number the
    database call throws and the answer is the 500 of the error mapper.
    Whatever the id, the handler answers and the database is as it was. *)
Theorem get_stores_id_found_or_404 NODE_ENV db req :
  (forall n,
     Number (VStr (params_id req)) = Int n ->
     (int32 n -> stores db !! n = None ->
        get_stores_id NODE_ENV db req = (store_not_found_response, db)) /\
     (forall s, stores db !! n = Some s ->
        exists (user : value) (ps : list (Z * Product)),
          get_stores_id NODE_ENV db req =
            ({| status := 200;
                body := Some (VObj
                  [("id", VNum (Int n)); ("name", VStr (s_name s));
                   ("userId", VNum (Int (s_userId s)));
                   ("user", user);
                   ("products", VArr (VObj ∘ product_json <$> ps))]) |},
             db) /\
          user = from_option (fun u => owner_view (s_userId s, u)) VNull
                   (users db !! s_userId s) /\
          has_property "password" user = false /\
          StronglySorted createdAt_desc ps /\
          NoDup ps /\
          (forall pid p,
             (pid, p) ∈ ps <->
             products db !! pid = Some p /\ p_storeId p = n))) /\
  (Number (VStr (params_id req)) = NaN ->
     status (get_stores_id NODE_ENV db req).1 = 500 /\
     from_option (property "error") VUndefined
       (body (get_stores_id NODE_ENV db req).1)
       = VStr "Erro interno do servidor" /\
     (NODE_ENV <> Some "development" ->
        body (get_stores_id NODE_ENV db req).1 =
          Some (VObj [("error", VStr "Erro interno do servidor")]))) /\
  (get_stores_id NODE_ENV db req).2 = db.
Proof.
  split; [|split].
  - intros n Hid. split; [intros _; by apply get_stores_id_absent|].
    intros s Hs. eexists _, (prisma.store.products_of db n).
    split; [|split; [reflexivity|split; [|apply products_of_spec]]].
    + unfold get_stores_id, prisma.store.findUnique. rewrite Hid, Hs. simpl.
      unfold res_json. do 3 f_equal.
      destruct (users db !! s_userId s) as [u|]; simpl;
        by rewrite <- list_fmap_compose.
    + by destruct (users db !! s_userId s).
  - intros Hid. unfold get_stores_id, prisma.store.findUnique.
    rewrite Hid. unfold try_catch. cbn [mbind result_bind].
    rewrite errorHandler_validation_error. cbn [fst status body].
    case_bool_decide; [done|]. simpl.
    done.
  - unfold get_stores_id, try_catch.
    by destruct (prisma.store.findUnique _ _) as [[[[s u] ps]|]|e].
Qed.

Lemma get_stores_id_found_or_404_witness :
  get_stores_id None sample_db {| params_id := "9"; req_body := [] |} =
    (store_not_found_response, sample_db) /\
  exists user ps,
    get_stores_id None sample_db {| params_id := "2"; req_body := [] |} =
      ({| status := 200;
          body := Some (VObj
            [("id", VNum (Int 2)); ("name", VStr "Loja da Bia");
             ("userId", VNum (Int 2)); ("user", user);
             ("products", VArr (VObj ∘ product_json <$> ps))]) |},
       sample_db) /\
    has_property "password" user = false.
Proof.
  split.
  - apply (proj1 (get_stores_id_found_or_404 None sample_db
                    {| params_id := "9"; req_body := [] |}) 9);
      [reflexivity | unfold int32; lia | reflexivity].
  - destruct (proj2 (proj1 (get_stores_id_found_or_404 None sample_db
                {| params_id := "2"; req_body := [] |}) 2 eq_refl)
                {| s_name := "Loja da Bia"; s_userId := 2 |} eq_refl)
      as (user & ps & Hr & _ & Hp & _).
    exists user, ps. split; [exact Hr | exact Hp].
Defined.

(** ** [PUT /stores/:id] and [PUT /products/:id] *)

Lemma get_without_eq k o : get k (without k o) = VUndefined.
Proof.
  induction o as [|[k' v] o IH]; simpl; [done|].
  destruct (String.eqb_spec k' k) as [->|Hne]; simpl; [done|].
  destruct (String.eqb_spec k k') as [->|_]; [done|apply IH].
Qed.

Lemma get_without_ne k k' o : k <> k' -> get k' (without k o) = get k' o.
Proof.
  intros Hne. induction o as [|[k0 v] o IH]; simpl; [done|].
  destruct (String.eqb_spec k0 k) as [->|Hne0]; simpl.
  - destruct (String.eqb_spec k' k) as [->|_]; [done|apply IH].
  - by rewrite IH.
Qed.

(** What a successful [prisma.store.update] has done. *)
Lemma store_update_inv db n name userId r db' :
  prisma.store.update db (Int n) name userId = Ok (r, db') ->
  exists s row,
    stores db !! n = Some s /\ r = (n, row) /\
    db' = with_stores db (<[n := row]> (stores db)) (store_seq db) /\
    (name = VUndefined -> s_name row = s_name s) /\
    (userId = VUndefined -> s_userId row = s_userId s) /\
    (forall x, name = VStr x -> s_name row = x) /\
    (forall u, userId = VNum (Int u) -> s_userId row = u).
Proof.
  unfold prisma.store.update. intros H.
  destruct (stores db !! n) as [s|] eqn:Hs.
  - destruct name as [| | | |x| |]; simpl in H; try discriminate;
      destruct userId as [| | |[|[u|]|]| | |]; simpl in H; try discriminate;
      try (case_bool_decide; try discriminate);
      injection H as <- <-; eexists s, _;
      (split; [reflexivity|]); (split; [reflexivity|]);
      (split; [reflexivity|]); simpl; repeat split; congruence.
  - destruct name as [| | | |x| |]; simpl in H; try discriminate;
      destruct userId as [| | |[|[u|]|]| | |]; simpl in H; discriminate.
Qed.

(** A call that throws leaves the handler's database as it was. *)
Lemma put_stores_id_cases db req :
  let data_userId :=
    if truthy (get "userId" (req_body req))
    then VNum (Number (get "userId" (req_body req))) else VUndefined in
  match prisma.store.update db (Number (VStr (params_id req)))
          (get "name" (req_body req)) data_userId with
  | Ok (store, db') =>
      put_stores_id db req =
        ({| status := 200; body := Some (VObj (store_json store)) |}, db')
  | Throw e =>
      put_stores_id db req =
        (if code_is "P2025" e then store_not_found_response
         else {| status := 400;
                 body := Some (VObj [("error", VStr (message e))]) |}, db)
  end.
Proof.
  unfold put_stores_id. simpl.
  destruct (prisma.store.update _ _ _ _) as [[store db']|e]; simpl; [done|].
  by destruct (code_is "P2025" e).
Qed.

(** On an existing store the update, whether it succeeds or throws, keeps
    the owner when the body's [userId] is falsy and the name when the body
    has no [name], and touches nothing else. *)
Lemma put_stores_id_frame db req n s :
  Number (VStr (params_id req)) = Int n ->
  stores db !! n = Some s ->
  (truthy (get "userId" (req_body req)) = false ->
     s_userId <$> stores (put_stores_id db req).2 !! n = Some (s_userId s)) /\
  (get "name" (req_body req) = VUndefined ->
     s_name <$> stores (put_stores_id db req).2 !! n = Some (s_name s)) /\
  (forall m, m <> n ->
     stores (put_stores_id db req).2 !! m = stores db !! m) /\
  users (put_stores_id db req).2 = users db /\
  products (put_stores_id db req).2 = products db.
Proof.
  intros Hid Hs. pose proof (put_stores_id_cases db req) as Hc.
  cbv zeta in Hc. rewrite Hid in Hc.
  destruct (prisma.store.update _ _ _ _) as [[store db']|e] eqn:Hu;
    rewrite Hc; simpl.
  - apply store_update_inv in Hu
      as (s' & row & Hs' & -> & -> & Hname & Howner & _).
    simpl. rewrite lookup_insert_eq. simpl.
    assert (s' = s) as -> by congruence.
    split; [intros Hx; rewrite Hx in Howner; by rewrite Howner|].
    split; [intros Hx; by rewrite Hname|].
    split; [intros m Hm; by apply lookup_insert_ne|]. done.
  - rewrite Hs. done.
Qed.

(** Without a store at the id the update throws, whatever the data. *)
Lemma store_update_absent db id name userId :
  (forall n, id = Int n -> stores db !! n = None) ->
  exists e, prisma.store.update db id name userId = Throw e.
Proof.
  intros Hn. unfold prisma.store.update.
  destruct id as [|[n|]|]; try by eexists.
  rewrite (Hn n eq_refl).
  destruct name as [| | | |x| |]; simpl; try (by eexists);
    destruct userId as [| | |[|[u|]|]| | |]; simpl; by eexists.
Qed.

(** C4.  For a [PUT /stores/:id] on an existing store, a column whose
    property the body does not supply keeps its value: without [userId] the
    owner is unchanged, without [name] the name is; the other stores, the
    users and the products are untouched.  When the id converts to an
    integer of the 32-bit column that no store has, a request whose
    supplied fields have the types of their columns is answered with 404.
    An id that is not a number, as [abc], is answered with 400.  Whenever
    no store has the id the answer is 404 or 400 and nothing changes.  Any
    failure of the update other than record-not-found is answered with 400
    and the message of the error. *)
Theorem put_stores_id_partial db req :
  (forall n s,
     Number (VStr (params_id req)) = Int n -> stores db !! n = Some s ->
     (get "userId" (req_body req) = VUndefined ->
        s_userId <$> stores (put_stores_id db req).2 !! n = Some (s_userId s)) /\
     (get "name" (req_body req) = VUndefined ->
        s_name <$> stores (put_stores_id db req).2 !! n = Some (s_name s)) /\
     (forall m, m <> n ->
        stores (put_stores_id db req).2 !! m = stores db !! m) /\
     users (put_stores_id db req).2 = users db /\
     products (put_stores_id db req).2 = products db) /\
  (forall n,
     Number (VStr (params_id req)) = Int n -> int32 n ->
     stores db !! n = None ->
     get "name" (req_body req) = VUndefined \/
       (exists x, get "name" (req_body req) = VStr x) ->
     truthy (get "userId" (req_body req)) = false \/
       (exists u, Number (get "userId" (req_body req)) = Int u /\ int32 u) ->
     put_stores_id db req = (store_not_found_response, db)) /\
  (Number (VStr (params_id req)) = NaN ->
     status (put_stores_id db req).1 = 400 /\
     (put_stores_id db req).2 = db) /\
  ((forall n, Number (VStr (params_id req)) = Int n ->
      stores db !! n = None) ->
     (status (put_stores_id db req).1 = 404 \/
      status (put_stores_id db req).1 = 400) /\
     (put_stores_id db req).2 = db) /\
  (forall e,
     prisma.store.update db (Number (VStr (params_id req)))
       (get "name" (req_body req))
       (if truthy (get "userId" (req_body req))
        then VNum (Number (get "userId" (req_body req)))
        else VUndefined) = Throw e ->
     code e <> Some "P2025" ->
     put_stores_id db req =
       ({| status := 400;
           body := Some (VObj [("error", VStr (message e))]) |}, db)).
Proof.
  pose proof (put_stores_id_cases db req) as Hc. cbv zeta in Hc.
  set (name := get "name" (req_body req)) in *.
  set (userId := get "userId" (req_body req)) in *.
  split; [|split; [|split; [|split]]].
  - intros n s Hid Hs.
    destruct (put_stores_id_frame db req n s Hid Hs) as (Ho & Hrest).
    split; [|exact Hrest]. intros Hx. apply Ho. fold userId. by rewrite Hx.
  - intros n Hid _ Hn Hname Howner. rewrite Hid in Hc.
    assert (Hu : prisma.store.update db (Int n) name
                   (if truthy userId then VNum (Number userId) else VUndefined)
                 = Throw (record_not_found "prisma.store.update()")).
    { unfold prisma.store.update. rewrite Hn.
      destruct Hname as [-> | [x ->]];
        (destruct Howner as [-> | (u & Hu & _)];
         [|destruct (truthy userId); rewrite ?Hu]); reflexivity. }
    rewrite Hu in Hc. exact Hc.
  - intros Hid. rewrite Hid in Hc. simpl in Hc. by rewrite Hc.
  - intros Hn.
    destruct (store_update_absent db (Number (VStr (params_id req))) name
                (if truthy userId then VNum (Number userId) else VUndefined)
                Hn) as [e He].
    rewrite He in Hc. rewrite Hc. destruct (code_is "P2025" e); simpl; auto.
  - intros e Hu Hne. rewrite Hu in Hc. rewrite Hc.
    by rewrite (proj2 (code_is_false _ _) Hne).
Qed.

Lemma put_stores_id_partial_witness :
  s_userId <$>
    stores (put_stores_id sample_db
              {| params_id := "1";
                 req_body := [("name", VStr "Papelaria")] |}).2 !! 1
    = Some 1 /\
  put_stores_id sample_db
    {| params_id := "8"; req_body := [("name", VStr "Papelaria")] |}
    = (store_not_found_response, sample_db) /\
  status (put_stores_id sample_db
            {| params_id := "abc";
               req_body := [("name", VStr "Papelaria")] |}).1 = 400 /\
  (put_stores_id sample_db
     {| params_id := "99999999999";
        req_body := [("name", VNum (Int 5))] |}).2 = sample_db /\
  put_stores_id sample_db
    {| params_id := "1"; req_body := [("userId", VNum (Int 9))] |}
    = ({| status := 400;
          body := Some (VObj [("error",
            VStr "Foreign key constraint failed on the field: userId")]) |},
       sample_db).
Proof.
  split; [|split; [|split; [|split]]].
  - apply (proj1 (put_stores_id_partial sample_db
                    {| params_id := "1";
                       req_body := [("name", VStr "Papelaria")] |})
             1 {| s_name := "Loja da Ana"; s_userId := 1 |} eq_refl eq_refl).
    reflexivity.
  - apply (proj1 (proj2 (put_stores_id_partial sample_db
             {| params_id := "8";
                req_body := [("name", VStr "Papelaria")] |})) 8 eq_refl).
    + unfold int32. lia.
    + reflexivity.
    + right. by eexists.
    + left. reflexivity.
  - apply (proj1 (proj2 (proj2 (put_stores_id_partial sample_db
             {| params_id := "abc";
                req_body := [("name", VStr "Papelaria")] |})))).
    reflexivity.
  - apply (proj1 (proj2 (proj2 (proj2 (put_stores_id_partial sample_db
             {| params_id := "99999999999";
                req_body := [("name", VNum (Int 5))] |}))))).
    intros n Hn. vm_compute in Hn. injection Hn as <-. reflexivity.
  - apply (proj2 (proj2 (proj2 (proj2 (put_stores_id_partial sample_db
             {| params_id := "1";
                req_body := [("userId", VNum (Int 9))] |}))))
             (foreign_key_violation "userId")).
    + reflexivity.
    + discriminate.
Defined.

Example run_put_store :
  put_stores_id sample_db
    {| params_id := "1"; req_body := [("name", VStr "Papelaria")] |} =
  ({| status := 200;
      body := Some (VObj [("id", VNum (Int 1)); ("name", VStr "Papelaria");
                          ("userId", VNum (Int 1))]) |},
   with_stores sample_db
     (<[1 := {| s_name := "Papelaria"; s_userId := 1 |}]> (stores sample_db))
     2).
Proof. reflexivity. Qed.

(** What a successful [prisma.product.update] has done. *)
Lemma product_update_inv db n name price storeId r db' :
  prisma.product.update db (Int n) name price storeId = Ok (r, db') ->
  exists p row,
    products db !! n = Some p /\ r = (n, row) /\
    db' = with_products db (<[n := row]> (products db)) (product_seq db) /\
    (name = VUndefined -> p_name row = p_name p) /\
    (price = VUndefined -> p_price row = p_price p) /\
    (storeId = VUndefined -> p_storeId row = p_storeId p) /\
    (forall st, storeId = VNum (Int st) -> p_storeId row = st).
Proof.
  unfold prisma.product.update. intros H.
  destruct name as [| | | |x| |]; simpl in H; try discriminate;
    destruct price as [| | |[|pr|]| | |]; simpl in H; try discriminate;
    destruct storeId as [| | |[|[st|]|]| | |]; simpl in H; try discriminate;
    (destruct (products db !! n) as [p|] eqn:Hp; [|discriminate]);
    try (case_bool_decide; try discriminate);
    injection H as <- <-; eexists p, _;
    (split; [reflexivity|]); (split; [reflexivity|]);
    (split; [reflexivity|]); simpl; repeat split; congruence.
Qed.

Lemma put_products_id_cases db req :
  match prisma.product.update db (Number (VStr (params_id req)))
          (get "name" (req_body req))
          (if truthy (get "price" (req_body req))
           then VNum (Number (get "price" (req_body req))) else VUndefined)
          (if truthy (get "storeId" (req_body req))
           then VNum (Number (get "storeId" (req_body req))) else VUndefined)
  with
  | Ok (product, db') =>
      put_products_id db req =
        ({| status := 200; body := Some (VObj (product_json product)) |}, db')
  | Throw e =>
      put_products_id db req =
        (if code_is "P2025" e
         then {| status := 404;
                 body := Some (VObj [("error",
                                      VStr "Produto não encontrado")]) |}
         else {| status := 400;
                 body := Some (VObj [("error", VStr (message e))]) |}, db)
  end.
Proof.
  unfold put_products_id. simpl.
  destruct (prisma.product.update _ _ _ _ _) as [[product db']|e]; simpl;
    [done|].
  by destruct (code_is "P2025" e).
Qed.

Lemma put_products_id_frame db req n p :
  Number (VStr (params_id req)) = Int n ->
  products db !! n = Some p ->
  (truthy (get "price" (req_body req)) = false ->
     p_price <$> products (put_products_id db req).2 !! n
     = Some (p_price p)) /\
  (truthy (get "storeId" (req_body req)) = false ->
     p_storeId <$> products (put_products_id db req).2 !! n
     = Some (p_storeId p)).
Proof.
  intros Hid Hp. pose proof (put_products_id_cases db req) as Hc.
  rewrite Hid in Hc.
  destruct (prisma.product.update _ _ _ _ _) as [[product db']|e] eqn:Hu;
    rewrite Hc; simpl.
  - apply product_update_inv in Hu
      as (p' & row & Hp' & -> & -> & _ & Hprice & Hstore & _).
    simpl. rewrite lookup_insert_eq. simpl.
    assert (p' = p) as -> by congruence.
    split; intros Hx; rewrite Hx in *; [by rewrite Hprice|by rewrite Hstore].
  - rewrite Hp. done.
Qed.

Lemma falsy_false v : falsy v = true <-> truthy v = false.
Proof. unfold falsy. apply negb_true_iff. Qed.

(** C9.  In [PUT /stores/:id] a supplied [userId] that is falsy, [0] for
    one, and in [PUT /products/:id] a supplied [price] or [storeId] that is
    falsy, is treated as if the property were absent: the request is
    answered, and changes the database, exactly as the same request without
    that property, and the stored column keeps its value. *)
Theorem falsy_update_fields_ignored :
  (forall db req,
     falsy (get "userId" (req_body req)) = true ->
     put_stores_id db req =
       put_stores_id db {| params_id := params_id req;
                           req_body := without "userId" (req_body req) |}) /\
  (forall db req n s,
     Number (VStr (params_id req)) = Int n -> stores db !! n = Some s ->
     falsy (get "userId" (req_body req)) = true ->
     s_userId <$> stores (put_stores_id db req).2 !! n = Some (s_userId s)) /\
  (forall db req,
     falsy (get "price" (req_body req)) = true ->
     put_products_id db req =
       put_products_id db {| params_id := params_id req;
                             req_body := without "price" (req_body req) |}) /\
  (forall db req,
     falsy (get "storeId" (req_body req)) = true ->
     put_products_id db req =
       put_products_id db {| params_id := params_id req;
                             req_body := without "storeId" (req_body req) |}) /\
  (forall db req n p,
     Number (VStr (params_id req)) = Int n -> products db !! n = Some p ->
     (falsy (get "price" (req_body req)) = true ->
        p_price <$> products (put_products_id db req).2 !! n
        = Some (p_price p)) /\
     (falsy (get "storeId" (req_body req)) = true ->
        p_storeId <$> products (put_products_id db req).2 !! n
        = Some (p_storeId p))).
Proof.
  split; [|split; [|split; [|split]]].
  - intros db req Hf%falsy_false. unfold put_stores_id. simpl.
    rewrite get_without_eq, get_without_ne by done. rewrite Hf. reflexivity.
  - intros db req n s Hid Hs Hf%falsy_false.
    by apply (put_stores_id_frame db req n s).
  - intros db req Hf%falsy_false. unfold put_products_id. simpl.
    rewrite get_without_eq, !get_without_ne by done. rewrite Hf. reflexivity.
  - intros db req Hf%falsy_false. unfold put_products_id. simpl.
    rewrite get_without_eq, !get_without_ne by done. rewrite Hf. reflexivity.
  - intros db req n p Hid Hp.
    destruct (put_products_id_frame db req n p Hid Hp) as [H1 H2].
    split; intros Hf%falsy_false; auto.
Qed.

Lemma falsy_update_fields_ignored_witness :
  put_stores_id sample_db
    {| params_id := "1"; req_body := [("userId", VNum (Int 0))] |} =
  put_stores_id sample_db {| params_id := "1"; req_body := [] |} /\
  s_userId <$>
    stores (put_stores_id sample_db
              {| params_id := "1";
                 req_body := [("userId", VNum (Int 0))] |}).2 !! 1 = Some 1 /\
  p_price <$>
    products (put_products_id sample_db
                {| params_id := "2";
                   req_body := [("price", VNum (Int 0));
                                ("storeId", VNum (Int 0))] |}).2 !! 2
    = Some (Integer 20).
Proof.
  destruct falsy_update_fields_ignored as (H1 & H2 & _ & _ & H5).
  split; [|split].
  - apply (H1 sample_db
             {| params_id := "1"; req_body := [("userId", VNum (Int 0))] |}).
    reflexivity.
  - apply (H2 sample_db
             {| params_id := "1"; req_body := [("userId", VNum (Int 0))] |}
             1 {| s_name := "Loja da Ana"; s_userId := 1 |});
      reflexivity.
  - apply (H5 sample_db
             {| params_id := "2";
                req_body := [("price", VNum (Int 0));
                             ("storeId", VNum (Int 0))] |}
             2 {| p_name := "Caderno"; p_price := Integer 20; p_storeId := 1;
                  p_createdAt := 3000; p_updatedAt := 3000 |});
      reflexivity.
Defined.

Example run_put_store_zero_owner :
  put_stores_id sample_db
    {| params_id := "1"; req_body := [("userId", VNum (Int 0))] |} =
  ({| status := 200;
      body := Some (VObj [("id", VNum (Int 1)); ("name", VStr "Loja da Ana");
                          ("userId", VNum (Int 1))]) |},
   with_stores sample_db
     (<[1 := {| s_name := "Loja da Ana"; s_userId := 1 |}]> (stores sample_db))
     2).
Proof. reflexivity. Qed.

(** ** [POST /products] *)

Lemma post_products_cases now db_now db req :
  match prisma.product.create db_now db (get "name" (req_body req))
          (Number (get "price" (req_body req)))
          (Number (get "storeId" (req_body req))) now with
  | Ok (product, db') =>
      post_products now db_now db req =
        ({| status := 201; body := Some (VObj (product_json product)) |}, db')
  | Throw e =>
      post_products now db_now db req =
        ({| status := 400;
            body := Some (VObj [("error", VStr (message e))]) |}, db)
  end.
Proof.
  unfold post_products. cbv zeta.
  by destruct (prisma.product.create _ _ _ _ _ _) as [[product db']|e].
Qed.

Lemma product_create_inv now db name price storeId updatedAt r db' :
  prisma.product.create now db name price storeId updatedAt = Ok (r, db') ->
  exists x pr st,
    name = VStr x /\ price = Finite pr /\ storeId = Int st /\
    is_Some (stores db !! st) /\
    r = (product_seq db + 1,
         {| p_name := x; p_price := pr; p_storeId := st;
            p_createdAt := now; p_updatedAt := updatedAt |}) /\
    db' = with_products db (<[r.1 := r.2]> (products db)) r.1.
Proof.
  unfold prisma.product.create. intros H.
  destruct name as [| | | |x| |]; try discriminate.
  destruct price as [|pr|]; try discriminate.
  destruct storeId as [|[st|]|]; try discriminate.
  destruct (stores db !! st) as [s|] eqn:Hs; [|discriminate].
  injection H as <- <-. exists x, pr, st. rewrite Hs. eauto 10.
Qed.

(** C6.  [POST /products] passes [name] as it is, [Number(price)] as the
    price, [Number(storeId)] as the store and the time of the request as
    the update time to the database call; when the call returns, the
    answer is 201 with the record it returns, and when it throws, 400 with
    the message of the error.  The handler has no guard of its own:
    without [name], [price] or [storeId] the call is refused, the answer is
    400 and nothing is created.  When the name is a string, the
    price converts to a finite number, fractions as [9.99] included, and
    [storeId] to the id of an existing store, the record is created and
    returned with status 201; its creation time is the one the database
    gives it.  Every request is answered with 201 and the created record,
    or with 400, an error message and an unchanged database. *)
Theorem post_products_created_or_400 now db_now db req :
  (forall product db',
     prisma.product.create db_now db (get "name" (req_body req))
       (Number (get "price" (req_body req)))
       (Number (get "storeId" (req_body req))) now = Ok (product, db') ->
     post_products now db_now db req =
       ({| status := 201; body := Some (VObj (product_json product)) |},
        db') /\
     p_updatedAt product.2 = now) /\
  (forall e,
     prisma.product.create db_now db (get "name" (req_body req))
       (Number (get "price" (req_body req)))
       (Number (get "storeId" (req_body req))) now = Throw e ->
     post_products now db_now db req =
       ({| status := 400;
           body := Some (VObj [("error", VStr (message e))]) |}, db)) /\
  (forall k,
     k = "name" \/ k = "price" \/ k = "storeId" ->
     get k (req_body req) = VUndefined ->
     status (post_products now db_now db req).1 = 400 /\
     (post_products now db_now db req).2 = db) /\
  (forall x pr st,
     get "name" (req_body req) = VStr x ->
     Number (get "price" (req_body req)) = Finite pr ->
     Number (get "storeId" (req_body req)) = Int st ->
     is_Some (stores db !! st) ->
     exists id,
       post_products now db_now db req =
         ({| status := 201;
             body := Some (VObj
               [("id", VNum (Int id)); ("name", VStr x);
                ("price", VNum (Finite pr)); ("storeId", VNum (Int st));
                ("createdAt", VNum (Int db_now));
                ("updatedAt", VNum (Int now))]) |},
          with_products db
            (<[id := {| p_name := x; p_price := pr; p_storeId := st;
                        p_createdAt := db_now; p_updatedAt := now |}]>
               (products db))
            id)) /\
  ((exists id row,
      (post_products now db_now db req).1 =
        {| status := 201; body := Some (VObj (product_json (id, row))) |} /\
      products (post_products now db_now db req).2 !! id = Some row /\
      Number (get "price" (req_body req)) = Finite (p_price row) /\
      Number (get "storeId" (req_body req)) = Int (p_storeId row) /\
      p_updatedAt row = now) \/
   (exists msg,
      post_products now db_now db req =
        ({| status := 400; body := Some (VObj [("error", VStr msg)]) |}, db))).
Proof.
  pose proof (post_products_cases now db_now db req) as Hc.
  split; [|split; [|split; [|split]]].
  - intros product db' Hu. rewrite Hu in Hc. split; [exact Hc|].
    by apply product_create_inv in Hu as (? & ? & ? & _ & _ & _ & _ & -> & _).
  - intros e Hu. by rewrite Hu in Hc.
  - intros k Hk Hv.
    assert (Hu : prisma.product.create db_now db (get "name" (req_body req))
                   (Number (get "price" (req_body req)))
                   (Number (get "storeId" (req_body req))) now
                 = Throw (validation_error "prisma.product.create()")).
    { unfold prisma.product.create.
      destruct Hk as [-> | [-> | ->]]; rewrite Hv; simpl.
      - reflexivity.
      - by destruct (get "name" (req_body req)).
      - destruct (get "name" (req_body req)); try reflexivity.
        by destruct (Number (get "price" (req_body req))). }
    rewrite Hu in Hc. by rewrite Hc.
  - intros x pr st Hx Hpr Hst [s Hs]. rewrite Hx, Hpr, Hst in Hc.
    unfold prisma.product.create in Hc. rewrite Hs in Hc.
    exists (product_seq db + 1). exact Hc.
  - destruct (prisma.product.create _ _ _ _ _ _) as [[r db']|e] eqn:Hu.
    + left. apply product_create_inv in Hu
        as (x & pr & st & _ & Hpr & Hst & _ & -> & ->).
      eexists _, _. rewrite Hc. simpl. split; [reflexivity|].
      split; [apply lookup_insert_eq|]. done.
    + right. eauto.
Qed.

Lemma post_products_created_or_400_witness :
  status (post_products 7000 7001 sample_db
            {| params_id := "";
               req_body := [("name", VStr "Lápis");
                            ("storeId", VNum (Int 1))] |}).1 = 400 /\
  exists id,
    post_products 7000 7001 sample_db
      {| params_id := "";
         req_body := [("name", VStr "Lápis"); ("price", VStr "9.99");
                      ("storeId", VStr "1")] |} =
      ({| status := 201;
          body := Some (VObj
            [("id", VNum (Int id)); ("name", VStr "Lápis");
             ("price", VNum (Frac false 5623870034678907 49));
             ("storeId", VNum (Int 1));
             ("createdAt", VNum (Int 7001));
             ("updatedAt", VNum (Int 7000))]) |},
       with_products sample_db
         (<[id := {| p_name := "Lápis";
                     p_price := Fraction false 5623870034678907 49;
                     p_storeId := 1;
                     p_createdAt := 7001; p_updatedAt := 7000 |}]>
            (products sample_db)) id).
Proof.
  split.
  - apply (proj1 (proj2 (proj2 (post_products_created_or_400 7000 7001
                    sample_db
                    {| params_id := "";
                       req_body := [("name", VStr "Lápis");
                                    ("storeId", VNum (Int 1))] |}))) "price").
    + right; left. reflexivity.
    + reflexivity.
  - apply (proj1 (proj2 (proj2 (proj2 (post_products_created_or_400 7000 7001
                    sample_db
                    {| params_id := "";
                       req_body := [("name", VStr "Lápis");
                                    ("price", VStr "9.99");
                                    ("storeId", VStr "1")] |}))))
             "Lápis" (Fraction false 5623870034678907 49) 1);
      [reflexivity | vm_compute; reflexivity | reflexivity | by eexists].
Defined.

Example run_post_product :
  (post_products 7000 7001 sample_db
     {| params_id := "";
        req_body := [("name", VStr "Lápis"); ("price", VNum (Int 10));
                     ("storeId", VStr "0x1")] |}).1 =
    {| status := 201;
       body := Some (VObj
         [("id", VNum (Int 4)); ("name", VStr "Lápis");
          ("price", VNum (Int 10)); ("storeId", VNum (Int 1));
          ("createdAt", VNum (Int 7001));
          ("updatedAt", VNum (Int 7000))]) |}.
Proof. vm_compute. reflexivity. Qed.

(** ** The invariants of the data model *)

Lemma db_ok_empty : db_ok empty_db.
Proof.
  split; simpl; intros *; rewrite ?lookup_empty;
    try done; by intros [? ?].
Qed.

Lemma user_create_keeps_ok now db name email password r db' :
  db_ok db ->
  prisma.user.create now db name email password = Ok (r, db') -> db_ok db'.
Proof.
  intros [He Ho Hs Hu Hst Hp] Hc.
  destruct (user_create_cases now db name email password)
    as [(n & e & p & id & _ & _ & _ & -> & Hfresh & Hc')
       |[(? & ? & ? & _ & _ & _ & Hc')|Hc']];
    rewrite Hc' in Hc; [|done..].
  injection Hc as <- <-. split; simpl.
  - intros i j u v [[<- <-]|[Hi Hu']]%lookup_insert_Some
      [[<- <-]|[Hj Hv']]%lookup_insert_Some Heq; simpl in *.
    + done.
    + by destruct (Hfresh j v).
    + by destruct (Hfresh i u).
    + eauto.
  - intros i s Hi. apply lookup_insert_is_Some.
    destruct (decide (user_seq db + 1 = s_userId s)); eauto.
  - done.
  - intros i [->|[_ Hi]]%lookup_insert_is_Some; [lia|].
    apply Hu in Hi. lia.
  - done.
  - done.
Qed.

Lemma user_delete_keeps_ok db id r db' :
  db_ok db -> prisma.user.delete db id = Ok (r, db') -> db_ok db'.
Proof.
  intros [He Ho Hs Hu Hst Hp] Hd. unfold prisma.user.delete in Hd.
  destruct id as [|[n|]|]; try done.
  destruct (users db !! n) as [u|] eqn:Hn; [|done].
  injection Hd as <- <-. split; simpl.
  - intros i j x y [_ Hi]%lookup_delete_Some [_ Hj]%lookup_delete_Some. eauto.
  - intros i s [Hi Hne]%map_lookup_filter_Some. simpl in Hne.
    apply lookup_delete_is_Some. eauto.
  - intros i p [Hi Hne]%map_lookup_filter_Some. simpl in Hne.
    unfold product_owner in Hne.
    destruct (Hs i p Hi) as [s Hs']. exists s.
    apply map_lookup_filter_Some. split; [done|]. simpl.
    rewrite Hs' in Hne. simpl in Hne. congruence.
  - intros i [x [_ Hi]%lookup_delete_Some]. eauto.
  - intros i [x [Hi _]%map_lookup_filter_Some]. eauto.
  - intros i [x [Hi _]%map_lookup_filter_Some]. eauto.
Qed.

Lemma store_create_keeps_ok db name userId r db' :
  db_ok db -> prisma.store.create db name userId = Ok (r, db') -> db_ok db'.
Proof.
  intros [He Ho Hs Hu Hst Hp] Hc. unfold prisma.store.create in Hc.
  destruct name as [| | | |x| |]; try done.
  destruct userId as [|[u|]|]; try done.
  destruct (users db !! u) as [owner|] eqn:Howner; [|done].
  injection Hc as <- <-. split; simpl; try done.
  - intros i s [[<- <-]|[_ Hi]]%lookup_insert_Some; simpl; eauto.
  - intros i p Hi. apply lookup_insert_is_Some.
    destruct (decide (store_seq db + 1 = p_storeId p)); eauto.
  - intros i [->|[_ Hi]]%lookup_insert_is_Some; [lia|].
    apply Hst in Hi. lia.
Qed.

Lemma store_update_data db id name userId r db' :
  prisma.store.update db id name userId = Ok (r, db') ->
  userId = VUndefined \/
  exists u, userId = VNum (Int u) /\ is_Some (users db !! u).
Proof.
  unfold prisma.store.update. intros H. destruct id as [|[n|]|]; try done.
  destruct name as [| | | |x| |]; simpl in H; try done;
    destruct userId as [| | |[|[u|]|]| | |]; simpl in H; try done; auto;
    (destruct (stores db !! n); [|done]);
    case_bool_decide as Hx; try done;
    right; exists u; (split; [done|]); by apply not_eq_None_Some.
Qed.

Lemma store_update_keeps_ok db id name userId r db' :
  db_ok db -> prisma.store.update db id name userId = Ok (r, db') ->
  db_ok db'.
Proof.
  intros [He Ho Hs Hu Hst Hp] Hc. destruct id as [|[n|]|]; try done.
  pose proof (store_update_data _ _ _ _ _ _ Hc) as Hdata.
  apply store_update_inv in Hc
    as (s & row & Hn & -> & -> & _ & Hkeep & _ & Hset).
  split; simpl; try done.
  - intros i s' [[<- <-]|[_ Hi]]%lookup_insert_Some; [|eauto].
    destruct Hdata as [->|(u & -> & Hsome)].
    + rewrite Hkeep by done. eauto.
    + by rewrite (Hset u).
  - intros i p Hi. apply lookup_insert_is_Some.
    destruct (decide (n = p_storeId p)); eauto.
  - intros i [<-|[_ Hi]]%lookup_insert_is_Some; eauto.
Qed.

Lemma store_delete_keeps_ok db id r db' :
  db_ok db -> prisma.store.delete db id = Ok (r, db') -> db_ok db'.
Proof.
  intros [He Ho Hs Hu Hst Hp] Hd. unfold prisma.store.delete in Hd.
  destruct id as [|[n|]|]; try done.
  destruct (stores db !! n) as [s|] eqn:Hn; [|done].
  injection Hd as <- <-. split; simpl; try done.
  - intros i x [_ Hi]%lookup_delete_Some. eauto.
  - intros i p [Hi Hne]%map_lookup_filter_Some. simpl in Hne.
    apply lookup_delete_is_Some. eauto.
  - intros i [x [_ Hi]%lookup_delete_Some]. eauto.
  - intros i [x [Hi _]%map_lookup_filter_Some]. eauto.
Qed.

Lemma product_create_keeps_ok now db name price storeId updatedAt r db' :
  db_ok db ->
  prisma.product.create now db name price storeId updatedAt = Ok (r, db') ->
  db_ok db'.
Proof.
  intros [He Ho Hs Hu Hst Hp] Hc.
  apply product_create_inv in Hc
    as (x & pr & st & _ & _ & _ & Hsome & -> & ->).
  split; simpl; try done.
  - intros i p [[<- <-]|[_ Hi]]%lookup_insert_Some; simpl; eauto.
  - intros i [<-|[_ Hi]]%lookup_insert_is_Some; [lia|].
    apply Hp in Hi. lia.
Qed.

Lemma product_update_data db id name price storeId r db' :
  prisma.product.update db id name price storeId = Ok (r, db') ->
  storeId = VUndefined \/
  exists st, storeId = VNum (Int st) /\ is_Some (stores db !! st).
Proof.
  unfold prisma.product.update. intros H. destruct id as [|[n|]|]; try done.
  destruct name as [| | | |x| |]; simpl in H; try done;
    destruct price as [| | |[|pr|]| | |]; simpl in H; try done;
    destruct storeId as [| | |[|[st|]|]| | |]; simpl in H; try done; auto;
    (destruct (products db !! n); [|done]);
    case_bool_decide as Hx; try done;
    right; exists st; (split; [done|]); by apply not_eq_None_Some.
Qed.

Lemma product_update_keeps_ok db id name price storeId r db' :
  db_ok db ->
  prisma.product.update db id name price storeId = Ok (r, db') -> db_ok db'.
Proof.
  intros [He Ho Hs Hu Hst Hp] Hc. destruct id as [|[n|]|]; try done.
  pose proof (product_update_data _ _ _ _ _ _ _ Hc) as Hdata.
  apply product_update_inv in Hc
    as (p & row & Hn & -> & -> & _ & _ & Hkeep & Hset).
  split; simpl; try done.
  - intros i p' [[<- <-]|[_ Hi]]%lookup_insert_Some; [|eauto].
    destruct Hdata as [->|(st & -> & Hsome)].
    + rewrite Hkeep by done. eauto.
    + by rewrite (Hset st).
  - intros i [<-|[_ Hi]]%lookup_insert_is_Some; eauto.
Qed.

Lemma product_delete_keeps_ok db id r db' :
  db_ok db -> prisma.product.delete db id = Ok (r, db') -> db_ok db'.
Proof.
  intros [He Ho Hs Hu Hst Hp] Hd. unfold prisma.product.delete in Hd.
  destruct id as [|[n|]|]; try done.
  destruct (products db !! n) as [p|] eqn:Hn; [|done].
  injection Hd as <- <-. split; simpl; try done.
  - intros i x [_ Hi]%lookup_delete_Some. eauto.
  - intros i [x [_ Hi]%lookup_delete_Some]. eauto.
Qed.

(** Every request leaves the invariants in place. *)
Lemma app_keeps_db_ok NODE_ENV now db_now r db req :
  db_ok db -> db_ok (app NODE_ENV now db_now r db req).2.
Proof.
  intros Hok. destruct r; simpl; try done.
  - unfold post_users, try_catch.
    destruct (_ || _); [done|]. destruct (negb _); [done|]. simpl.
    destruct (prisma.user.create _ _ _ _ _) as [[u db']|e] eqn:Hc; [|done].
    simpl. eauto using user_create_keeps_ok.
  - unfold delete_users_id, try_catch.
    destruct (prisma.user.findUnique _ _) as [[u|]|e]; simpl; try done.
    destruct (prisma.user.delete _ _) as [[u' db']|e] eqn:Hd; [|done].
    simpl. eauto using user_delete_keeps_ok.
  - unfold post_stores, try_catch.
    destruct (_ || _); [done|].
    destruct (prisma.user.findUnique _ _) as [[u|]|e]; simpl; try done.
    destruct (prisma.store.create _ _ _) as [[[s o] db']|e] eqn:Hc; [|done].
    simpl. eauto using store_create_keeps_ok.
  - unfold get_stores_id, try_catch.
    by destruct (prisma.store.findUnique _ _) as [[[[s u] ps]|]|e].
  - unfold put_stores_id, try_catch. cbv zeta.
    destruct (prisma.store.update _ _ _ _) as [[s db']|e] eqn:Hc; [|done].
    simpl. eauto using store_update_keeps_ok.
  - unfold delete_stores_id, try_catch.
    destruct (prisma.store.delete _ _) as [[s db']|e] eqn:Hc; [|done].
    simpl. eauto using store_delete_keeps_ok.
  - unfold post_products, try_catch. cbv zeta.
    destruct (prisma.product.create _ _ _ _ _ _) as [[p db']|e] eqn:Hc;
      [|done].
    simpl. eauto using product_create_keeps_ok.
  - unfold put_products_id, try_catch. cbv zeta.
    destruct (prisma.product.update _ _ _ _ _) as [[p db']|e] eqn:Hc; [|done].
    simpl. eauto using product_update_keeps_ok.
  - unfold delete_products_id, try_catch.
    destruct (prisma.product.delete _ _) as [[p db']|e] eqn:Hc; [|done].
    simpl. eauto using product_delete_keeps_ok.
Qed.

(** The invariants hold in every database the application can be in. *)
Lemma reachable_db_ok db : reachable db -> db_ok db.
Proof.
  induction 1 as [|NODE_ENV now db_now r db req _ IH];
    [apply db_ok_empty | by apply app_keeps_db_ok].
Qed.

(** So a store read by [GET /stores/:id] always comes with its owner, and
    a created row never replaces an existing one. *)
Lemma reachable_store_has_owner db n s :
  reachable db -> stores db !! n = Some s ->
  exists u, users db !! s_userId s = Some u.
Proof. intros Hr%reachable_db_ok Hs. by apply (ok_owner db Hr n s). Qed.

Lemma reachable_next_keys_free db :
  reachable db ->
  users db !! (user_seq db + 1) = None /\
  stores db !! (store_seq db + 1) = None /\
  products db !! (product_seq db + 1) = None.
Proof.
  intros [_ _ _ Hu Hs Hp]%reachable_db_ok.
  repeat split; apply eq_None_not_Some; intros Hi;
    [apply Hu in Hi | apply Hs in Hi | apply Hp in Hi]; lia.
Qed.

(** ** A session from an empty database *)

Example run_session :
  let r1 := post_users 100 empty_db
              {| params_id := "";
                 req_body := [("name", VStr "A"); ("email", VStr "a@a.com");
                              ("password", VStr "p")] |} in
  let r2 := post_stores None r1.2
              {| params_id := "";
                 req_body := [("name", VStr "S"); ("userId", VNum (Int 1))] |} in
  let r3 := get_stores_id None r2.2 {| params_id := "1"; req_body := [] |} in
  let r4 := post_products 200 201 r3.2
              {| params_id := "";
                 req_body := [("name", VStr "P"); ("price", VNum (Int 10));
                              ("storeId", VNum (Int 1))] |} in
  let r5 := get_products r4.2 {| params_id := ""; req_body := [] |} in
  status r1.1 = 201 /\ status r2.1 = 201 /\
  status r3.1 = 200 /\
  from_option (property "products") VUndefined (body r3.1) = VArr [] /\
  status r4.1 = 201 /\
  r5.1 =
    {| status := 200;
       body := Some (VArr
         [VObj [("id", VNum (Int 1)); ("name", VStr "P");
                ("price", VNum (Int 10)); ("storeId", VNum (Int 1));
                ("createdAt", VNum (Int 201)); ("updatedAt", VNum (Int 200));
                ("store",
                 VObj [("id", VNum (Int 1)); ("name", VStr "S");
                       ("userId", VNum (Int 1));
                       ("user",
                        VObj [("id", VNum (Int 1)); ("name", VStr "A");
                              ("email", VStr "a@a.com");
                              ("password", VStr "p");
                              ("createdAt", VNum (Int 100));
                              ("updatedAt", VNum (Int 100))])])]]) |}.
Proof. vm_compute. repeat split; reflexivity. Qed.

(** ** The sample database is one the application can be in *)

Lemma sample_db_reachable : reachable sample_db.
Proof.
  pose (mk := fun (b : object) => {| params_id := ""; req_body := b |}).
  pose proof reachable_start as H.
  apply (reachable_request None 1000 1000 POST_users _
           (mk [("name", VStr "Ana"); ("email", VStr "ana@loja.com");
                ("password", VStr "s3gredo")])) in H.
  apply (reachable_request None 1500 1500 POST_users _
           (mk [("name", VStr "Bia"); ("email", VStr "bia@loja.com");
                ("password", VStr "abc123")])) in H.
  apply (reachable_request None 1600 1600 POST_stores _
           (mk [("name", VStr "Loja da Ana"); ("userId", VNum (Int 1))]))
    in H.
  apply (reachable_request None 1700 1700 POST_stores _
           (mk [("name", VStr "Loja da Bia"); ("userId", VNum (Int 2))]))
    in H.
  apply (reachable_request None 2000 2000 POST_products _
           (mk [("name", VStr "Caneta"); ("price", VNum (Int 3));
                ("storeId", VNum (Int 1))])) in H.
  apply (reachable_request None 3000 3000 POST_products _
           (mk [("name", VStr "Caderno"); ("price", VNum (Int 20));
                ("storeId", VNum (Int 1))])) in H.
  apply (reachable_request None 2500 2500 POST_products _
           (mk [("name", VStr "Mochila"); ("price", VNum (Int 90));
                ("storeId", VNum (Int 2))])) in H.
  match type of H with
  | reachable ?d =>
      replace sample_db with d by (vm_compute; reflexivity)
  end.
  exact H.
Qed.

(** * Further properties of the routes *)

(** ** [POST /stores] *)

Lemma post_stores_cases NODE_ENV db req :
  truthy (get "name" (req_body req)) = true ->
  truthy (get "userId" (req_body req)) = true ->
  post_stores NODE_ENV db req =
    match prisma.user.findUnique db (Number (get "userId" (req_body req))) with
    | Throw e => (errorHandler NODE_ENV e, db)
    | Ok None => (user_not_found_response, db)
    | Ok (Some _) =>
        match prisma.store.create db (get "name" (req_body req))
                (Number (get "userId" (req_body req))) with
        | Ok (store, user, db') =>
            ({| status := 201; body := Some (store_with_user store user) |},
             db')
        | Throw e => (errorHandler NODE_ENV e, db)
        end
    end.
Proof.
  intros Hn Hu. unfold post_stores, falsy. rewrite Hn, Hu. simpl.
  destruct (prisma.user.findUnique _ _) as [[o|]|e]; simpl; try done.
  destruct (prisma.store.create _ _ _) as [[[s u] db']|e]; simpl; done.
Qed.

(** X1.  [POST /stores] answers 400, with the same body, when [name] or
    [userId] is missing or falsy (an empty name, a [userId] of [0]), before
    any database call; and 404 when both are there and [userId] converts,
    as [7], ["7"], ["0x7"] and ["7.0"] do, to an integer of the 32-bit
    column that no user has as id.  Nothing is created in either case. *)
Theorem post_stores_refusals NODE_ENV db req :
  (falsy (get "name" (req_body req)) = true \/
   falsy (get "userId" (req_body req)) = true ->
     post_stores NODE_ENV db req = (missing_store_fields_response, db)) /\
  (forall u,
     truthy (get "name" (req_body req)) = true ->
     truthy (get "userId" (req_body req)) = true ->
     Number (get "userId" (req_body req)) = Int u ->
     int32 u ->
     users db !! u = None ->
     post_stores NODE_ENV db req = (user_not_found_response, db)).
Proof.
  split.
  - intros Hf. unfold post_stores.
    assert (falsy (get "name" (req_body req))
            || falsy (get "userId" (req_body req)) = true) as ->
      by (destruct Hf as [-> | ->]; rewrite ?orb_true_r; done).
    reflexivity.
  - intros u Hn Hu Hid _ Hnone. rewrite post_stores_cases by done.
    rewrite Hid. simpl. by rewrite Hnone.
Qed.

Lemma post_stores_refusals_witness :
  post_stores None sample_db
    {| params_id := "";
       req_body := [("name", VStr "Nova"); ("userId", VNum (Int 0))] |}
    = (missing_store_fields_response, sample_db) /\
  post_stores None sample_db
    {| params_id := "";
       req_body := [("name", VStr "Nova"); ("userId", VStr "0x7")] |}
    = (user_not_found_response, sample_db).
Proof.
  split.
  - apply (proj1 (post_stores_refusals None sample_db
             {| params_id := "";
                req_body := [("name", VStr "Nova");
                             ("userId", VNum (Int 0))] |})).
    right. reflexivity.
  - apply (proj2 (post_stores_refusals None sample_db
             {| params_id := "";
                req_body := [("name", VStr "Nova");
                             ("userId", VStr "0x7")] |}) 7);
      [reflexivity | reflexivity | vm_compute; reflexivity
      | unfold int32; lia | reflexivity].
Defined.

Lemma post_stores_ok NODE_ENV db req x u owner :
  get "name" (req_body req) = VStr x -> x <> "" ->
  truthy (get "userId" (req_body req)) = true ->
  Number (get "userId" (req_body req)) = Int u ->
  users db !! u = Some owner ->
  post_stores NODE_ENV db req =
    ({| status := 201;
        body := Some (store_with_user
                        (store_seq db + 1, {| s_name := x; s_userId := u |})
                        (u, owner)) |},
     with_stores db
       (<[store_seq db + 1 := {| s_name := x; s_userId := u |}]> (stores db))
       (store_seq db + 1)).
Proof.
  intros Hn Hx Hu Hid Ho.
  rewrite post_stores_cases by (rewrite ?Hn; by try apply truthy_VStr).
  rewrite Hid, Hn. simpl. rewrite Ho. simpl. by rewrite ?Ho.
Qed.

(** X2.  With a non-empty string as [name] and a [userId] that converts to the
    id of an existing user, [POST /stores] answers 201 with the new store
    under the next key of the sequence, and embeds the owner with every
    column, the password included: [include: { user: true }] selects
    nothing away.  The store is in the table afterwards; users and products
    are untouched. *)
Theorem post_stores_created NODE_ENV db req x u owner :
  get "name" (req_body req) = VStr x -> x <> "" ->
  truthy (get "userId" (req_body req)) = true ->
  Number (get "userId" (req_body req)) = Int u ->
  users db !! u = Some owner ->
  (post_stores NODE_ENV db req).1 =
    {| status := 201;
       body := Some (VObj
         [("id", VNum (Int (store_seq db + 1))); ("name", VStr x);
          ("userId", VNum (Int u));
          ("user", VObj (user_json (u, owner)))]) |} /\
  property "password" (VObj (user_json (u, owner)))
    = VStr (u_password owner) /\
  stores (post_stores NODE_ENV db req).2 !! (store_seq db + 1)
    = Some {| s_name := x; s_userId := u |} /\
  users (post_stores NODE_ENV db req).2 = users db /\
  products (post_stores NODE_ENV db req).2 = products db.
Proof.
  intros Hn Hx Hu Hid Ho.
  rewrite (post_stores_ok NODE_ENV db req x u owner) by done. simpl.
  repeat split; try done. apply lookup_insert_eq.
Qed.

Lemma post_stores_created_witness :
  (post_stores None sample_db
     {| params_id := "";
        req_body := [("name", VStr "Filial"); ("userId", VStr "2")] |}).1 =
    {| status := 201;
       body := Some (VObj
         [("id", VNum (Int 3)); ("name", VStr "Filial");
          ("userId", VNum (Int 2));
          ("user", VObj (user_json (2, bia)))]) |}.
Proof.
  apply (post_stores_created None sample_db
           {| params_id := "";
              req_body := [("name", VStr "Filial"); ("userId", VStr "2")] |}
           "Filial" 2 bia); try reflexivity. discriminate.
Defined.

Lemma products_of_unreferenced db db' id :
  products db' = products db ->
  (forall i p, products db !! i = Some p -> p_storeId p <> id) ->
  prisma.store.products_of db' id = [].
Proof.
  intros Hp Hfree. unfold prisma.store.products_of. rewrite Hp.
  assert (filter (fun r : Z * Product => p_storeId r.2 = id) (products db)
          = ∅) as ->; [|by rewrite map_to_list_empty].
  apply map_eq. intros i. rewrite lookup_empty.
  apply map_lookup_filter_None. right. intros p Hi. simpl. eauto.
Qed.

(** X3.  In a database the application can be in, a store just created by
    [POST /stores] is read back by [GET /stores/:id] under its new id: 200
    with the same name and owner id, the owner shown without the password,
    and an empty list of products. *)
Theorem post_stores_then_get NODE_ENV db req x u owner req' :
  reachable db ->
  get "name" (req_body req) = VStr x -> x <> "" ->
  truthy (get "userId" (req_body req)) = true ->
  Number (get "userId" (req_body req)) = Int u ->
  users db !! u = Some owner ->
  Number (VStr (params_id req')) = Int (store_seq db + 1) ->
  get_stores_id NODE_ENV (post_stores NODE_ENV db req).2 req' =
    ({| status := 200;
        body := Some (VObj
          [("id", VNum (Int (store_seq db + 1))); ("name", VStr x);
           ("userId", VNum (Int u));
           ("user", owner_view (u, owner));
           ("products", VArr [])]) |},
     (post_stores NODE_ENV db req).2).
Proof.
  intros Hr Hn Hx Hu Hid Ho Hid'.
  rewrite (post_stores_ok NODE_ENV db req x u owner) by done. simpl.
  unfold get_stores_id, prisma.store.findUnique. rewrite Hid'. simpl.
  rewrite lookup_insert_eq. simpl. rewrite Ho. simpl.
  rewrite (products_of_unreferenced db); [done..|].
  intros i p Hi Heq. apply reachable_db_ok in Hr.
  destruct (ok_store db Hr i p Hi) as [s Hs].
  assert (p_storeId p <= store_seq db)
    by (apply (ok_store_seq db Hr); eauto). lia.
Qed.

Lemma post_stores_then_get_witness :
  get_stores_id None
    (post_stores None sample_db
       {| params_id := "";
          req_body := [("name", VStr "Filial"); ("userId", VStr "2")] |}).2
    {| params_id := "3"; req_body := [] |} =
    ({| status := 200;
        body := Some (VObj
          [("id", VNum (Int 3)); ("name", VStr "Filial");
           ("userId", VNum (Int 2));
           ("user", owner_view (2, bia));
           ("products", VArr [])]) |},
     (post_stores None sample_db
        {| params_id := "";
           req_body := [("name", VStr "Filial"); ("userId", VStr "2")] |}).2).
Proof.
  apply (post_stores_then_get None sample_db
           {| params_id := "";
              req_body := [("name", VStr "Filial"); ("userId", VStr "2")] |}
           "Filial" 2 bia {| params_id := "3"; req_body := [] |});
    try reflexivity; try discriminate.
  apply sample_db_reachable.
Defined.

(** ** [PUT /stores/:id], the update itself *)

(** X4.  On an existing store [PUT /stores/:id] answers 200 with the updated
    row: the name is the string supplied, the empty string included, or the
    old one when the body has none; the owner is the user [userId] converts
    to, who has to exist, or the old one when [userId] is falsy.  The row in
    the table is the one returned. *)
Theorem put_stores_id_updates db req n s new_name new_owner :
  Number (VStr (params_id req)) = Int n ->
  stores db !! n = Some s ->
  get "name" (req_body req) = from_option VStr VUndefined new_name ->
  match new_owner with
  | None => truthy (get "userId" (req_body req)) = false
  | Some u =>
      truthy (get "userId" (req_body req)) = true /\
      Number (get "userId" (req_body req)) = Int u /\
      is_Some (users db !! u)
  end ->
  put_stores_id db req =
    ({| status := 200;
        body := Some (VObj
          [("id", VNum (Int n));
           ("name", VStr (default (s_name s) new_name));
           ("userId", VNum (Int (default (s_userId s) new_owner)))]) |},
     with_stores db
       (<[n := {| s_name := default (s_name s) new_name;
                  s_userId := default (s_userId s) new_owner |}]> (stores db))
       (store_seq db)).
Proof.
  intros Hid Hs Hn Ho. unfold put_stores_id. cbv zeta.
  rewrite Hid, Hn. unfold prisma.store.update. rewrite Hs.
  destruct new_owner as [u|].
  - destruct Ho as (-> & -> & [o Ho]).
    destruct new_name; simpl; rewrite bool_decide_eq_false_2 by congruence;
      reflexivity.
  - rewrite Ho. by destruct new_name.
Qed.

Lemma put_stores_id_updates_witness :
  put_stores_id sample_db
    {| params_id := "1";
       req_body := [("name", VStr ""); ("userId", VStr "2")] |} =
    ({| status := 200;
        body := Some (VObj [("id", VNum (Int 1)); ("name", VStr "");
                            ("userId", VNum (Int 2))]) |},
     with_stores sample_db
       (<[1 := {| s_name := ""; s_userId := 2 |}]> (stores sample_db)) 2).
Proof.
  apply (put_stores_id_updates sample_db
           {| params_id := "1";
              req_body := [("name", VStr ""); ("userId", VStr "2")] |}
           1 {| s_name := "Loja da Ana"; s_userId := 1 |} (Some "") (Some 2));
    try reflexivity.
  split; [reflexivity|]. split; [reflexivity|]. by eexists.
Defined.

(** ** [PUT /products/:id] *)

Lemma put_products_id_keeps db req n p :
  Number (VStr (params_id req)) = Int n ->
  products db !! n = Some p ->
  (get "name" (req_body req) = VUndefined ->
     p_name <$> products (put_products_id db req).2 !! n = Some (p_name p)) /\
  (p_createdAt <$> products (put_products_id db req).2 !! n
     = Some (p_createdAt p)) /\
  (forall m, m <> n ->
     products (put_products_id db req).2 !! m = products db !! m) /\
  users (put_products_id db req).2 = users db /\
  stores (put_products_id db req).2 = stores db.
Proof.
  intros Hid Hp. pose proof (put_products_id_cases db req) as Hc.
  rewrite Hid in Hc.
  destruct (prisma.product.update _ _ _ _ _) as [[product db']|e] eqn:Hu;
    rewrite Hc; simpl.
  - unfold prisma.product.update in Hu. rewrite Hp in Hu.
    destruct (get "name" (req_body req)) as [| | | |x| |];
      simpl in Hu; try discriminate;
      (destruct (if truthy (get "price" (req_body req)) then _ else _)
         as [| | |[|pr|]| | |]; simpl in Hu; try discriminate);
      (destruct (if truthy (get "storeId" (req_body req)) then _ else _)
         as [| | |[|[st|]|]| | |]; simpl in Hu; try discriminate);
      try (case_bool_decide; try discriminate);
      injection Hu as <- <-; simpl; rewrite lookup_insert_eq; simpl;
      (split; [done|]); (split; [done|]);
      (split; [intros m Hm; by apply lookup_insert_ne|]); done.
  - rewrite Hp. done.
Qed.

(** Without a product at the id the update throws, whatever the data. *)
Lemma product_update_absent db id name price storeId :
  (forall n, id = Int n -> products db !! n = None) ->
  exists e, prisma.product.update db id name price storeId = Throw e.
Proof.
  intros Hn. unfold prisma.product.update.
  destruct id as [|[n|]|]; try by eexists.
  rewrite (Hn n eq_refl).
  destruct name as [| | | |x| |]; simpl; try (by eexists);
    destruct price as [| | |[|pr|]| | |]; simpl; try (by eexists);
    destruct storeId as [| | |[|[st|]|]| | |]; simpl; by eexists.
Qed.

(** X5.  For a [PUT /products/:id] on an existing product, a column whose
    property the body does not supply keeps its value, the creation time is
    never changed, and the other products, the stores and the users are
    untouched.  When the id converts to an integer of the 32-bit column
    that no product has, a request whose supplied fields have the types of
    their columns is answered with 404.  An id that is not a number is
    answered with 400.  Whenever no product has the id the answer is 404 or
    400 and nothing changes.  Any failure of the update other than
    record-not-found is answered with 400 and the message of the error. *)
Theorem put_products_id_partial db req :
  (forall n p,
     Number (VStr (params_id req)) = Int n -> products db !! n = Some p ->
     (get "name" (req_body req) = VUndefined ->
        p_name <$> products (put_products_id db req).2 !! n
        = Some (p_name p)) /\
     (get "price" (req_body req) = VUndefined ->
        p_price <$> products (put_products_id db req).2 !! n
        = Some (p_price p)) /\
     (get "storeId" (req_body req) = VUndefined ->
        p_storeId <$> products (put_products_id db req).2 !! n
        = Some (p_storeId p)) /\
     (p_createdAt <$> products (put_products_id db req).2 !! n
        = Some (p_createdAt p)) /\
     (forall m, m <> n ->
        products (put_products_id db req).2 !! m = products db !! m) /\
     users (put_products_id db req).2 = users db /\
     stores (put_products_id db req).2 = stores db) /\
  (forall n,
     Number (VStr (params_id req)) = Int n -> int32 n ->
     products db !! n = None ->
     get "name" (req_body req) = VUndefined \/
       (exists x, get "name" (req_body req) = VStr x) ->
     truthy (get "price" (req_body req)) = false \/
       (exists pr, Number (get "price" (req_body req)) = Finite pr) ->
     truthy (get "storeId" (req_body req)) = false \/
       (exists st,
          Number (get "storeId" (req_body req)) = Int st /\ int32 st) ->
     put_products_id db req = (product_not_found_response, db)) /\
  (Number (VStr (params_id req)) = NaN ->
     status (put_products_id db req).1 = 400 /\
     (put_products_id db req).2 = db) /\
  ((forall n, Number (VStr (params_id req)) = Int n ->
      products db !! n = None) ->
     (status (put_products_id db req).1 = 404 \/
      status (put_products_id db req).1 = 400) /\
     (put_products_id db req).2 = db) /\
  (forall e,
     prisma.product.update db (Number (VStr (params_id req)))
       (get "name" (req_body req))
       (if truthy (get "price" (req_body req))
        then VNum (Number (get "price" (req_body req))) else VUndefined)
       (if truthy (get "storeId" (req_body req))
        then VNum (Number (get "storeId" (req_body req))) else VUndefined)
       = Throw e ->
     code e <> Some "P2025" ->
     put_products_id db req =
       ({| status := 400;
           body := Some (VObj [("error", VStr (message e))]) |}, db)).
Proof.
  pose proof (put_products_id_cases db req) as Hc.
  split; [|split; [|split; [|split]]].
  - intros n p Hid Hp.
    destruct (put_products_id_keeps db req n p Hid Hp) as (Hn & Hrest).
    destruct (put_products_id_frame db req n p Hid Hp) as (Hpr & Hst).
    split; [done|]. split; [intros Hx; apply Hpr; by rewrite Hx|].
    split; [intros Hx; apply Hst; by rewrite Hx|]. done.
  - intros n Hid _ Hn Hname Hprice Hstore. rewrite Hid in Hc.
    assert (Hu : prisma.product.update db (Int n) (get "name" (req_body req))
       (if truthy (get "price" (req_body req))
        then VNum (Number (get "price" (req_body req))) else VUndefined)
       (if truthy (get "storeId" (req_body req))
        then VNum (Number (get "storeId" (req_body req))) else VUndefined)
       = Throw (record_not_found "prisma.product.update()")).
    { unfold prisma.product.update. rewrite Hn.
      destruct Hname as [-> | [x ->]];
        (destruct Hprice as [-> | [pr Hpr]];
         [|destruct (truthy (get "price" _)); rewrite ?Hpr]);
        (destruct Hstore as [-> | (st & Hst & _)];
         [|destruct (truthy (get "storeId" _)); rewrite ?Hst]);
        reflexivity. }
    rewrite Hu in Hc. exact Hc.
  - intros Hid. rewrite Hid in Hc. simpl in Hc. by rewrite Hc.
  - intros Hn.
    destruct (product_update_absent db (Number (VStr (params_id req)))
                (get "name" (req_body req))
                (if truthy (get "price" (req_body req))
                 then VNum (Number (get "price" (req_body req)))
                 else VUndefined)
                (if truthy (get "storeId" (req_body req))
                 then VNum (Number (get "storeId" (req_body req)))
                 else VUndefined) Hn) as [e He].
    rewrite He in Hc. rewrite Hc. destruct (code_is "P2025" e); simpl; auto.
  - intros e Hu Hne. rewrite Hu in Hc. rewrite Hc.
    by rewrite (proj2 (code_is_false _ _) Hne).
Qed.

Lemma put_products_id_partial_witness :
  p_storeId <$>
    products (put_products_id sample_db
                {| params_id := "2";
                   req_body := [("price", VStr "25")] |}).2 !! 2 = Some 1 /\
  put_products_id sample_db
    {| params_id := "9"; req_body := [("price", VStr "2.5")] |}
    = (product_not_found_response, sample_db) /\
  status (put_products_id sample_db
            {| params_id := "abc";
               req_body := [("price", VStr "25")] |}).1 = 400 /\
  status (put_products_id sample_db
            {| params_id := "2";
               req_body := [("storeId", VNum (Int 8))] |}).1 = 400.
Proof.
  split; [|split; [|split]].
  - apply (proj1 (put_products_id_partial sample_db
                    {| params_id := "2";
                       req_body := [("price", VStr "25")] |})
             2 {| p_name := "Caderno"; p_price := Integer 20; p_storeId := 1;
                  p_createdAt := 3000; p_updatedAt := 3000 |}
             eq_refl eq_refl).
    reflexivity.
  - apply (proj1 (proj2 (put_products_id_partial sample_db
             {| params_id := "9";
                req_body := [("price", VStr "2.5")] |})) 9 eq_refl).
    + unfold int32. lia.
    + reflexivity.
    + left. reflexivity.
    + right. eexists. vm_compute. reflexivity.
    + left. reflexivity.
  - apply (proj1 (proj2 (proj2 (put_products_id_partial sample_db
             {| params_id := "abc";
                req_body := [("price", VStr "25")] |})))).
    reflexivity.
  - rewrite (proj2 (proj2 (proj2 (proj2 (put_products_id_partial sample_db
             {| params_id := "2";
                req_body := [("storeId", VNum (Int 8))] |}))))
             (foreign_key_violation "storeId")); [reflexivity..|discriminate].
Defined.

(** ** [DELETE /stores/:id] and [DELETE /products/:id] *)

(** X6.  A [DELETE /stores/:id] whose id converts to an integer [n] is
    answered with 404, and deletes nothing, when [n] is an identifier of
    the 32-bit column and no store has it.  When a store has it the answer
    is 204 with no body; the store is gone and the other stores stay, the
    products left are those of the other stores, the users are untouched,
    and reading or deleting the same store again gives 404. *)
Theorem delete_stores_id_cascade NODE_ENV db req n :
  Number (VStr (params_id req)) = Int n ->
  (int32 n -> stores db !! n = None ->
     delete_stores_id db req = (store_not_found_response, db)) /\
  (is_Some (stores db !! n) ->
     (delete_stores_id db req).1 = {| status := 204; body := None |} /\
     stores (delete_stores_id db req).2 = delete n (stores db) /\
     (forall pid p,
        products (delete_stores_id db req).2 !! pid = Some p <->
        products db !! pid = Some p /\ p_storeId p <> n) /\
     users (delete_stores_id db req).2 = users db /\
     get_stores_id NODE_ENV (delete_stores_id db req).2 req
       = (store_not_found_response, (delete_stores_id db req).2) /\
     delete_stores_id (delete_stores_id db req).2 req
       = (store_not_found_response, (delete_stores_id db req).2)).
Proof.
  intros Hid.
  assert (Habsent : forall d, stores d !! n = None ->
            delete_stores_id d req = (store_not_found_response, d)).
  { intros d Hn. unfold delete_stores_id, prisma.store.delete.
    rewrite Hid, Hn. reflexivity. }
  split; [intros _; apply Habsent|].
  intros [s Hs].
  assert (Hrun : delete_stores_id db req =
            ({| status := 204; body := None |},
             {| users := users db;
                stores := delete n (stores db);
                products :=
                  filter (fun r : Z * Product => p_storeId r.2 <> n)
                         (products db);
                user_seq := user_seq db; store_seq := store_seq db;
                product_seq := product_seq db |})).
  { unfold delete_stores_id, prisma.store.delete.
    rewrite Hid, Hs. reflexivity. }
  rewrite Hrun. simpl.
  split; [done|]. split; [done|].
  split; [intros pid p; apply map_lookup_filter_Some|]. split; [done|].
  split; [apply get_stores_id_absent with n; [done|] | apply Habsent];
    simpl; apply lookup_delete_eq.
Qed.

Lemma delete_stores_id_cascade_witness :
  delete_stores_id sample_db {| params_id := "5"; req_body := [] |}
    = (store_not_found_response, sample_db) /\
  (delete_stores_id sample_db {| params_id := "1"; req_body := [] |}).1
    = {| status := 204; body := None |} /\
  (map_to_list
     (products (delete_stores_id sample_db
                  {| params_id := "1"; req_body := [] |}).2)).*1 = [3].
Proof.
  split; [|split].
  - apply (proj1 (delete_stores_id_cascade None sample_db
             {| params_id := "5"; req_body := [] |} 5 eq_refl));
      [unfold int32; lia | reflexivity].
  - apply (proj2 (delete_stores_id_cascade None sample_db
             {| params_id := "1"; req_body := [] |} 1 eq_refl)).
    by eexists.
  - reflexivity.
Defined.

(** X7.  A [DELETE /products/:id] whose id converts to an integer [n] is
    answered with 404, and deletes nothing, when [n] is an identifier of
    the 32-bit column and no product has it.  When a product has it the
    answer is 204 with no body, that product is removed and nothing else;
    the same request again gives 404. *)
Theorem delete_products_id_one db req n :
  Number (VStr (params_id req)) = Int n ->
  (int32 n -> products db !! n = None ->
     delete_products_id db req = (product_not_found_response, db)) /\
  (is_Some (products db !! n) ->
     (delete_products_id db req).1 = {| status := 204; body := None |} /\
     products (delete_products_id db req).2 = delete n (products db) /\
     stores (delete_products_id db req).2 = stores db /\
     users (delete_products_id db req).2 = users db /\
     delete_products_id (delete_products_id db req).2 req
       = (product_not_found_response, (delete_products_id db req).2)).
Proof.
  intros Hid.
  assert (Habsent : forall d, products d !! n = None ->
            delete_products_id d req = (product_not_found_response, d)).
  { intros d Hn. unfold delete_products_id, prisma.product.delete.
    rewrite Hid, Hn. reflexivity. }
  split; [intros _; apply Habsent|].
  intros [p Hp].
  assert (Hrun : delete_products_id db req =
            ({| status := 204; body := None |},
             with_products db (delete n (products db)) (product_seq db))).
  { unfold delete_products_id, prisma.product.delete.
    rewrite Hid, Hp. reflexivity. }
  rewrite Hrun. simpl. repeat split; try done.
  apply Habsent. simpl. apply lookup_delete_eq.
Qed.

Lemma delete_products_id_one_witness :
  delete_products_id sample_db {| params_id := "8"; req_body := [] |}
    = (product_not_found_response, sample_db) /\
  products (delete_products_id sample_db
              {| params_id := "3"; req_body := [] |}).2
    = delete 3 (products sample_db).
Proof.
  split.
  - apply (proj1 (delete_products_id_one sample_db
             {| params_id := "8"; req_body := [] |} 8 eq_refl));
      [unfold int32; lia | reflexivity].
  - apply (proj2 (delete_products_id_one sample_db
             {| params_id := "3"; req_body := [] |} 3 eq_refl)).
    by eexists.
Defined.

(** ** [GET /products] and [GET /users] *)

Lemma wire_VArr l :
  wire (VArr l) =
  VArr ((fun x => match x with VUndefined => VNull | _ => wire x end) <$> l).
Proof. reflexivity. Qed.

Lemma get_products_eq db req :
  get_products db req =
    ({| status := 200;
        body := Some (VArr (product_view db <$> map_to_list (products db))) |},
     db).
Proof.
  unfold get_products, prisma.product.findMany, try_catch, res_json.
  cbn [mbind result_bind]. do 3 f_equal.
  rewrite wire_VArr. f_equal. rewrite <- !list_fmap_compose.
  apply list_fmap_ext. intros _ p _. unfold product_view. simpl.
  destruct (stores db !! p_storeId p.2) as [s|]; [|reflexivity]. simpl.
  by destruct (users db !! s_userId s).
Qed.

(** X8.  [GET /products] answers 200 with one record per stored product and
    leaves the database as it was.  A product whose store and owner exist
    is shown with the store embedded and, inside it, the owner with every
    column, the password included; in a database the application can be in
    every record has that shape. *)
Theorem get_products_lists_all db req :
  exists items,
    get_products db req =
      ({| status := 200; body := Some (VArr items) |}, db) /\
    length items = size (products db) /\
    (forall pid p s u,
       products db !! pid = Some p ->
       stores db !! p_storeId p = Some s ->
       users db !! s_userId s = Some u ->
       product_with_store (pid, p) (p_storeId p, s) (s_userId s, u) ∈ items) /\
    (reachable db ->
     forall x, x ∈ items ->
       exists pid p s u,
         products db !! pid = Some p /\
         stores db !! p_storeId p = Some s /\
         users db !! s_userId s = Some u /\
         x = product_with_store (pid, p) (p_storeId p, s) (s_userId s, u) /\
         property "password" (property "user" (property "store" x))
           = VStr (u_password u)).
Proof.
  eexists. split; [apply get_products_eq|].
  split; [by rewrite length_fmap, length_map_to_list|]. split.
  - intros pid p s u Hp Hs Hu. apply list_elem_of_fmap.
    exists (pid, p). split; [|by apply elem_of_map_to_list].
    unfold product_view, product_with_store, store_with_user. simpl.
    rewrite Hs. simpl. by rewrite Hu.
  - intros Hr%reachable_db_ok x ([pid p] & -> & Hp%elem_of_map_to_list)
      %list_elem_of_fmap.
    destruct (ok_store db Hr pid p Hp) as [s Hs].
    destruct (ok_owner db Hr _ s Hs) as [u Hu].
    exists pid, p, s, u. repeat split; try done;
      unfold product_view; simpl; rewrite Hs; simpl; by rewrite Hu.
Qed.

#[global] Instance id_asc_total {A} : Total (@id_asc A).
Proof. intros x y. unfold id_asc. lia. Qed.

#[global] Instance id_asc_trans {A} : Transitive (@id_asc A).
Proof. intros x y z. unfold id_asc. lia. Qed.

Lemma ascending_keys {A} (l : list (Z * A)) :
  StronglySorted id_asc l -> NoDup l.*1 -> StronglySorted Z.lt l.*1.
Proof.
  induction 1 as [|x l Hl IH Hx]; simpl; intros Hnd; [constructor|].
  apply NoDup_cons in Hnd as [Hnotin Hnd]. constructor; [auto|].
  apply Forall_fmap. rewrite Forall_forall in Hx |- *.
  intros y Hy. simpl. specialize (Hx y Hy). unfold id_asc in Hx.
  assert (x.1 <> y.1); [|lia].
  intros Heq. apply Hnotin. rewrite Heq. by apply list_elem_of_fmap_2.
Qed.

(** X9.  [GET /users] answers 200 with one record per stored user, in strictly
    ascending order of [id], and leaves the database as it was. *)
Theorem get_users_ascending NODE_ENV db req :
  exists us,
    get_users NODE_ENV db req =
      ({| status := 200; body := Some (VArr (VObj ∘ user_json <$> us)) |},
       db) /\
    StronglySorted Z.lt us.*1 /\
    length us = size (users db) /\
    (forall id u, (id, u) ∈ us <-> users db !! id = Some u).
Proof.
  eexists. split; [apply get_users_eq|]. split; [|split].
  - apply ascending_keys; [apply (StronglySorted_merge_sort _)|].
    rewrite merge_sort_Permutation. apply NoDup_fst_map_to_list.
  - by rewrite merge_sort_Permutation, length_map_to_list.
  - apply elem_of_sorted_users.
Qed.

(** ** How the routes compose *)

(** What a 201 from [POST /users] says about the request and the database
    it leaves. *)
Lemma post_users_201_inv now db req :
  status (post_users now db req).1 = 201 ->
  exists n e p,
    get "name" (req_body req) = VStr n /\ n <> "" /\
    get "email" (req_body req) = VStr e /\
    test_anchored email_pattern (VStr e) = true /\
    get "password" (req_body req) = VStr p /\ p <> "" /\
    (forall i u, users db !! i = Some u -> u_email u <> e) /\
    post_users now db req =
      ({| status := 201;
          body := Some (VObj (user_json
            (user_seq db + 1,
             {| u_name := n; u_email := e; u_password := p;
                u_createdAt := now; u_updatedAt := now |}))) |},
       with_users db
         (<[user_seq db + 1 :=
              {| u_name := n; u_email := e; u_password := p;
                 u_createdAt := now; u_updatedAt := now |}]> (users db))
         (user_seq db + 1)).
Proof.
  intros Hs.
  destruct (falsy (get "name" (req_body req))
            || falsy (get "email" (req_body req))
            || falsy (get "password" (req_body req))) eqn:Hf.
  { rewrite post_users_falsy in Hs by done. discriminate. }
  apply orb_false_iff in Hf as [Hf Hp]. apply orb_false_iff in Hf as [Hn He].
  apply negb_false_iff in Hn, He, Hp.
  rewrite post_users_truthy in Hs |- * by done.
  destruct (test_anchored _ _) eqn:Ht; [|discriminate].
  destruct (user_create_cases now db (get "name" (req_body req))
              (get "email" (req_body req)) (get "password" (req_body req)))
    as [(n & e & p & id & Hn' & He' & Hp' & -> & Hfresh & Hc)
       |[(? & ? & ? & _ & _ & _ & Hc)|Hc]];
    rewrite Hc in Hs |- *; [|done..].
  rewrite Hn' in Hn. rewrite He' in Ht. rewrite Hp' in Hp.
  apply truthy_VStr in Hn, Hp.
  exists n, e, p. by rewrite Hn', He', Hp'.
Qed.

(** X11.  Once [POST /users] has answered 201 for an email, a second
    [POST /users] with the same email, whatever its non-empty name and
    password, is answered with 409 and creates nothing. *)
Theorem post_users_twice_conflict now now' db req req' n' p' :
  status (post_users now db req).1 = 201 ->
  get "email" (req_body req') = get "email" (req_body req) ->
  get "name" (req_body req') = VStr n' -> n' <> "" ->
  get "password" (req_body req') = VStr p' -> p' <> "" ->
  status (post_users now' (post_users now db req).2 req').1 = 409 /\
  (post_users now' (post_users now db req).2 req').2
    = (post_users now db req).2.
Proof.
  intros (n & e & p & _ & _ & He & Ht & _ & _ & _ & ->)%post_users_201_inv
    He' Hn' Hn'' Hp' Hp''.
  simpl. rewrite He in He'.
  assert (e <> "") by (intros ->; discriminate).
  rewrite post_users_truthy
    by (rewrite ?Hn', ?He', ?Hp'; by apply truthy_VStr).
  rewrite Hn', He', Hp', Ht. unfold prisma.user.create.
  rewrite bool_decide_eq_true_2; [done|].
  apply map_Exists_lookup. eexists _, _. split; [apply lookup_insert_eq|done].
Qed.

Lemma post_users_twice_conflict_witness :
  status (post_users 300
            (post_users 200 empty_db
               {| params_id := "";
                  req_body := [("name", VStr "A"); ("email", VStr "a@a.com");
                               ("password", VStr "p")] |}).2
            {| params_id := "";
               req_body := [("name", VStr "B"); ("email", VStr "a@a.com");
                            ("password", VStr "q")] |}).1 = 409.
Proof.
  apply (post_users_twice_conflict 200 300 empty_db
           {| params_id := "";
              req_body := [("name", VStr "A"); ("email", VStr "a@a.com");
                           ("password", VStr "p")] |}
           {| params_id := "";
              req_body := [("name", VStr "B"); ("email", VStr "a@a.com");
                           ("password", VStr "q")] |} "B" "q");
    try reflexivity; discriminate.
Defined.

(** X12.  In a database the application can be in, deleting the user that
    [POST /users] has just created, by the id it returned, is answered with
    204 and gives back the tables as they were before the creation; the
    sequence keeps its step, so the id is not handed out again. *)
Theorem post_users_then_delete NODE_ENV now db req req' :
  reachable db ->
  status (post_users now db req).1 = 201 ->
  Number (VStr (params_id req')) = Int (user_seq db + 1) ->
  (delete_users_id NODE_ENV (post_users now db req).2 req').1
    = {| status := 204; body := None |} /\
  users (delete_users_id NODE_ENV (post_users now db req).2 req').2
    = users db /\
  stores (delete_users_id NODE_ENV (post_users now db req).2 req').2
    = stores db /\
  products (delete_users_id NODE_ENV (post_users now db req).2 req').2
    = products db /\
  user_seq (delete_users_id NODE_ENV (post_users now db req).2 req').2
    = user_seq db + 1.
Proof.
  intros Hr (n & e & p & _ & _ & _ & _ & _ & _ & _ & ->)%post_users_201_inv
    Hid.
  pose proof (reachable_db_ok db Hr) as Hok.
  destruct (reachable_next_keys_free db Hr) as (Hfree & _).
  unfold delete_users_id, prisma.user.findUnique, prisma.user.delete.
  rewrite Hid. simpl. repeat (rewrite lookup_insert_eq; simpl).
  assert (Howner : forall i s, stores db !! i = Some s ->
            s_userId s <> user_seq db + 1).
  { intros i s Hs Heq. destruct (ok_owner db Hok i s Hs) as [u Hu].
    rewrite Heq in Hu. congruence. }
  split; [done|]. split; [by apply delete_insert_id|].
  split; [|split; [|done]].
  - apply map_filter_id. intros i s Hs. simpl. eauto.
  - apply map_filter_id. intros i q Hq. simpl. unfold product_owner. simpl.
    destruct (stores db !! p_storeId q) as [s|] eqn:Hs; [|done].
    simpl. intros [= Heq]. by apply (Howner _ s Hs).
Qed.

Lemma post_users_then_delete_witness :
  users (delete_users_id None
           (post_users 5000 sample_db
              {| params_id := "";
                 req_body := [("name", VStr "Caio");
                              ("email", VStr "caio@loja.com");
                              ("password", VStr "x")] |}).2
           {| params_id := "3"; req_body := [] |}).2
    = users sample_db.
Proof.
  apply (post_users_then_delete None 5000 sample_db
           {| params_id := "";
              req_body := [("name", VStr "Caio");
                           ("email", VStr "caio@loja.com");
                           ("password", VStr "x")] |}
           {| params_id := "3"; req_body := [] |});
    [apply sample_db_reachable | reflexivity | reflexivity].
Defined.

(** X13.  A product that [POST /products] has created is listed by
    [GET /stores/:id] for the store it was created in: the answer is 200 and
    its [products] array holds the very record the creation returned. *)
Theorem post_products_then_listed NODE_ENV now db_now db req req' st :
  status (post_products now db_now db req).1 = 201 ->
  Number (get "storeId" (req_body req)) = Int st ->
  Number (VStr (params_id req')) = Int st ->
  exists created ps,
    body (post_products now db_now db req).1 = Some created /\
    status (get_stores_id NODE_ENV
              (post_products now db_now db req).2 req').1
      = 200 /\
    from_option (property "products") VUndefined
      (body (get_stores_id NODE_ENV
               (post_products now db_now db req).2 req').1)
      = VArr ps /\
    created ∈ ps.
Proof.
  intros Hs Hst Hid. pose proof (post_products_cases now db_now db req) as Hc.
  destruct (prisma.product.create _ _ _ _ _ _) as [[r db']|e] eqn:Hu;
    rewrite Hc in Hs |- *; [|discriminate]. simpl.
  apply product_create_inv in Hu
    as (x & pr & st' & _ & _ & Hst' & [s Hstore] & -> & ->).
  assert (st' = st) as -> by congruence.
  eexists _, (VObj ∘ product_json <$> prisma.store.products_of _ st).
  split; [reflexivity|].
  unfold get_stores_id, prisma.store.findUnique. rewrite Hid. simpl.
  rewrite Hstore. simpl. split; [done|].
  split.
  - destruct (users db !! s_userId s); simpl;
      by rewrite <- list_fmap_compose.
  - apply list_elem_of_fmap. eexists (_, _). split; [reflexivity|].
    apply products_of_spec. simpl. split; [apply lookup_insert_eq|done].
Qed.

Lemma post_products_then_listed_witness :
  exists created ps,
    body (post_products 7000 7001 sample_db
            {| params_id := "";
               req_body := [("name", VStr "Lápis"); ("price", VStr "2");
                            ("storeId", VStr "1")] |}).1 = Some created /\
    from_option (property "products") VUndefined
      (body (get_stores_id None
               (post_products 7000 7001 sample_db
                  {| params_id := "";
                     req_body := [("name", VStr "Lápis"); ("price", VStr "2");
                                  ("storeId", VStr "1")] |}).2
               {| params_id := "1"; req_body := [] |}).1) = VArr ps /\
    created ∈ ps.
Proof.
  destruct (post_products_then_listed None 7000 7001 sample_db
              {| params_id := "";
                 req_body := [("name", VStr "Lápis"); ("price", VStr "2");
                              ("storeId", VStr "1")] |}
              {| params_id := "1"; req_body := [] |} 1)
    as (created & ps & Hc & _ & Hp & Hin); [reflexivity..|].
  exists created, ps. auto.
Defined.

(** ** All routes at once *)

Lemma shaped_success allowed db s v db' :
  In s allowed -> s < 400 -> s <> 204 ->
  well_shaped allowed db (res_json s v, db').
Proof.
  intros Hin Hlt Hne. split; [done|]. simpl. split; [split; [lia|done]|lia].
Qed.

Lemma shaped_end allowed db db' :
  In 204 allowed -> well_shaped allowed db (res_end 204, db').
Proof. intros Hin. split; [done|]. simpl. split; [done|lia]. Qed.

Lemma shaped_error allowed db s msg rest :
  In s allowed -> s <> 204 ->
  well_shaped allowed db
    (res_json s (VObj (("error", VStr msg) :: rest)), db).
Proof.
  intros Hin Hne. split; [done|]. simpl. split; [split; [lia|done]|].
  intros _. split; [done|]. by exists msg.
Qed.

Lemma shaped_errorHandler allowed db NODE_ENV e :
  incl [409; 404; 400; 500] allowed ->
  well_shaped allowed db (errorHandler NODE_ENV e, db).
Proof.
  intros Hincl. unfold errorHandler.
  destruct (code_is "P2002" e);
    [apply shaped_error; [apply Hincl; simpl; tauto|done]|].
  destruct (code_is "P2025" e);
    [apply shaped_error; [apply Hincl; simpl; tauto|done]|].
  destruct (code_is "P2003" e);
    apply shaped_error; try done; apply Hincl; simpl; tauto.
Qed.

Lemma shaped_try_catch allowed db attempt catch :
  (forall out, attempt = Ok out -> well_shaped allowed db out) ->
  (forall e, well_shaped allowed db (catch e, db)) ->
  well_shaped allowed db (try_catch db attempt catch).
Proof. intros Hok Hcatch. unfold try_catch. destruct attempt; auto. Qed.

Lemma shaped_inline_catch allowed db (e : PrismaError) (nf : string) :
  In 404 allowed -> In 400 allowed ->
  well_shaped allowed db
    (if code_is "P2025" e
     then res_json 404 (VObj [("error", VStr nf)])
     else res_json 400 (VObj [("error", VStr (message e))]), db).
Proof.
  intros H404 H400. destruct (code_is "P2025" e); by apply shaped_error.
Qed.

Ltac allowed := unfold incl; simpl; intros; tauto.

Lemma app_well_shaped NODE_ENV now db_now r db req :
  well_shaped (statuses r) db (app NODE_ENV now db_now r db req).
Proof.
  destruct r; simpl;
    unfold get_root, post_users, get_users, delete_users_id, post_stores,
      get_stores_id, put_stores_id, delete_stores_id, post_products,
      get_products, put_products_id, delete_products_id, get_status.
  - apply shaped_success; [allowed|lia..].
  - apply shaped_try_catch.
    + intros out.
      destruct (_ || _); [intros [= <-]; by apply shaped_error; [allowed|]|].
      destruct (negb _); [intros [= <-]; by apply shaped_error; [allowed|]|].
      destruct (prisma.user.create _ _ _ _ _) as [[u db']|e]; [|done].
      intros [= <-]. apply shaped_success; [allowed|lia..].
    + intros e. destruct (code_is "P2002" e); by apply shaped_error; [allowed|].
  - apply shaped_try_catch; [|intros e; apply shaped_errorHandler; allowed].
    intros out [= <-]. apply shaped_success; [allowed|lia..].
  - apply shaped_try_catch; [|intros e; apply shaped_errorHandler;
                                allowed].
    intros out.
    destruct (prisma.user.findUnique _ _) as [[u|]|e]; simpl; [| |done].
    + destruct (prisma.user.delete _ _) as [[u' db']|e]; [|done].
      intros [= <-]. apply shaped_end. allowed.
    + intros [= <-]. by apply shaped_error; [allowed|].
  - apply shaped_try_catch; [|intros e; apply shaped_errorHandler;
                                allowed].
    intros out.
    destruct (_ || _); [intros [= <-]; by apply shaped_error; [allowed|]|].
    destruct (prisma.user.findUnique _ _) as [[u|]|e]; simpl; [| |done].
    + destruct (prisma.store.create _ _ _) as [[[s o] db']|e]; [|done].
      intros [= <-]. apply shaped_success; [allowed|lia..].
    + intros [= <-]. by apply shaped_error; [allowed|].
  - apply shaped_try_catch; [|intros e; apply shaped_errorHandler;
                                allowed].
    intros out.
    destruct (prisma.store.findUnique _ _) as [[[[s u] ps]|]|e]; simpl;
      [| |done]; intros [= <-].
    + apply shaped_success; [allowed|lia..].
    + by apply shaped_error; [allowed|].
  - apply shaped_try_catch; [|intros e; apply shaped_inline_catch; allowed].
    intros out. cbv zeta.
    destruct (prisma.store.update _ _ _ _) as [[s db']|e]; [|done].
    intros [= <-]. apply shaped_success; [allowed|lia..].
  - apply shaped_try_catch; [|intros e; apply shaped_inline_catch; allowed].
    intros out.
    destruct (prisma.store.delete _ _) as [[s db']|e]; [|done].
    intros [= <-]. apply shaped_end. allowed.
  - apply shaped_try_catch; [|intros e; by apply shaped_error; [allowed|]].
    intros out. cbv zeta.
    destruct (prisma.product.create _ _ _ _ _ _) as [[p db']|e]; [|done].
    intros [= <-]. apply shaped_success; [allowed|lia..].
  - apply shaped_try_catch; [|intros e; by apply shaped_error; [allowed|]].
    intros out [= <-]. apply shaped_success; [allowed|lia..].
  - apply shaped_try_catch; [|intros e; apply shaped_inline_catch; allowed].
    intros out. cbv zeta.
    destruct (prisma.product.update _ _ _ _ _) as [[p db']|e]; [|done].
    intros [= <-]. apply shaped_success; [allowed|lia..].
  - apply shaped_try_catch; [|intros e; apply shaped_inline_catch; allowed].
    intros out.
    destruct (prisma.product.delete _ _) as [[p db']|e]; [|done].
    intros [= <-]. apply shaped_end. allowed.
  - apply shaped_success; [allowed|lia..].
Qed.

(** X14.  Whatever the route, the request and the database, the status is one
    the handler of the route sends, and the answer has no body exactly
    when the status is 204.  In particular the routes that answer errors
    inline (stores and products, apart from [POST /stores] and
    [GET /stores/:id]) never send 409 or 500. *)
Theorem app_status_table NODE_ENV now db_now r db req :
  In (status (app NODE_ENV now db_now r db req).1) (statuses r) /\
  (status (app NODE_ENV now db_now r db req).1 = 204 <->
   body (app NODE_ENV now db_now r db req).1 = None).
Proof.
  destruct (app_well_shaped NODE_ENV now db_now r db req) as (Hs & Hb & _).
  done.
Qed.

(** X15.  Whatever the route, an answer with a status of 400 or more leaves the
    database as the request found it, and its body is an object whose
    [error] property is a string. *)
Theorem app_errors_change_nothing NODE_ENV now db_now r db req :
  400 <= status (app NODE_ENV now db_now r db req).1 ->
  (app NODE_ENV now db_now r db req).2 = db /\
  exists msg,
    from_option (property "error") VUndefined
      (body (app NODE_ENV now db_now r db req).1) = VStr msg.
Proof.
  destruct (app_well_shaped NODE_ENV now db_now r db req) as (_ & _ & He).
  exact He.
Qed.

Lemma app_errors_change_nothing_witness :
  (app None 0 0 PUT_stores_id sample_db
     {| params_id := "1"; req_body := [("userId", VNum (Int 9))] |}).2
    = sample_db.
Proof.
  apply (app_errors_change_nothing None 0 0 PUT_stores_id sample_db
           {| params_id := "1"; req_body := [("userId", VNum (Int 9))] |}).
  vm_compute. discriminate.
Defined.

(** X16.  The five [GET] routes never change the database, whatever they
    answer. *)
Theorem app_reads_change_nothing NODE_ENV now db_now r db req :
  reads_only r = true -> (app NODE_ENV now db_now r db req).2 = db.
Proof.
  destruct r; try discriminate; intros _; cbn [app].
  - done.
  - by rewrite get_users_eq.
  - unfold get_stores_id, try_catch.
    by destruct (prisma.store.findUnique _ _) as [[[[s u] ps]|]|e].
  - by rewrite get_products_eq.
  - done.
Qed.

Lemma app_reads_change_nothing_witness :
  (app None 0 0 GET_stores_id sample_db
     {| params_id := "abc"; req_body := [] |}).2 = sample_db.
Proof.
  apply (app_reads_change_nothing None 0 0 GET_stores_id sample_db
           {| params_id := "abc"; req_body := [] |}).
  reflexivity.
Defined.

(** X17.  In every database the application can reach from the empty one by
    requests, no two users share an email, every store has an existing
    owner and every product an existing store. *)
Theorem reachable_referential_integrity db :
  reachable db ->
  (forall i j u v,
     users db !! i = Some u -> users db !! j = Some v ->
     u_email u = u_email v -> i = j) /\
  (forall i s, stores db !! i = Some s ->
     exists u, users db !! s_userId s = Some u) /\
  (forall i p, products db !! i = Some p ->
     exists s, stores db !! p_storeId p = Some s).
Proof.
  intros [He Ho Hs _ _ _]%reachable_db_ok. split; [exact He|]. split.
  - intros i s Hi. exact (Ho i s Hi).
  - intros i p Hi. exact (Hs i p Hi).
Qed.

Lemma reachable_referential_integrity_witness :
  exists u,
    users sample_db !! s_userId {| s_name := "Loja da Bia"; s_userId := 2 |}
    = Some u.
Proof.
  destruct (reachable_referential_integrity sample_db sample_db_reachable)
    as (_ & Ho & _).
  apply (Ho 2 {| s_name := "Loja da Bia"; s_userId := 2 |}). reflexivity.
Defined.

(** ** [POST /users], the creation itself *)

(** X10.  With non-empty strings as name and password and an email that
    matches the pattern, by its code units, and that no user has yet,
    [POST /users] answers 201 with the new user: the name, email and
    password are the strings received, under an id and with the time stamps
    the database gives.  The user is in the table afterwards, and every
    other row of every table is as it was. *)
Theorem post_users_created now db req n e p :
  get "name" (req_body req) = VStr n -> n <> "" ->
  get "email" (req_body req) = VStr e ->
  well_formed_email (code_units e) ->
  get "password" (req_body req) = VStr p -> p <> "" ->
  (forall i u, users db !! i = Some u -> u_email u <> e) ->
  exists id u,
    u_name u = n /\ u_email u = e /\ u_password u = p /\
    (post_users now db req).1 =
      {| status := 201;
         body := Some (VObj
           [("id", VNum (Int id)); ("name", VStr n);
            ("email", VStr e); ("password", VStr p);
            ("createdAt", VNum (Int (u_createdAt u)));
            ("updatedAt", VNum (Int (u_updatedAt u)))]) |} /\
    users (post_users now db req).2 !! id = Some u /\
    (forall i, i <> id ->
       users (post_users now db req).2 !! i = users db !! i) /\
    stores (post_users now db req).2 = stores db /\
    products (post_users now db req).2 = products db.
Proof.
  intros Hn Hn' He Ht%(test_email_well_formed (VStr e)) Hp Hp' Hfree.
  assert (e <> "") by (intros ->; discriminate).
  rewrite post_users_truthy
    by (rewrite ?Hn, ?He, ?Hp; by apply truthy_VStr).
  rewrite Hn, He, Hp, Ht. unfold prisma.user.create.
  rewrite bool_decide_eq_false_2.
  - exists (user_seq db + 1),
      {| u_name := n; u_email := e; u_password := p;
         u_createdAt := now; u_updatedAt := now |}. simpl.
    split; [reflexivity|]. split; [reflexivity|]. split; [reflexivity|].
    split; [done|]. split; [apply lookup_insert_eq|].
    split; [|done]. intros i Hi. by apply lookup_insert_ne.
  - intros (i & u & Hi & Hu)%map_Exists_lookup. by apply (Hfree i u).
Qed.

Lemma post_users_created_witness :
  exists id u,
    u_name u = "Caio" /\ u_email u = "caio@loja.com" /\ u_password u = "x" /\
    (post_users 5000 sample_db
       {| params_id := "";
          req_body := [("name", VStr "Caio"); ("email", VStr "caio@loja.com");
                       ("password", VStr "x")] |}).1 =
      {| status := 201;
         body := Some (VObj
           [("id", VNum (Int id)); ("name", VStr "Caio");
            ("email", VStr "caio@loja.com"); ("password", VStr "x");
            ("createdAt", VNum (Int (u_createdAt u)));
            ("updatedAt", VNum (Int (u_updatedAt u)))]) |}.
Proof.
  destruct (post_users_created 5000 sample_db
              {| params_id := "";
                 req_body := [("name", VStr "Caio");
                              ("email", VStr "caio@loja.com");
                              ("password", VStr "x")] |}
              "Caio" "caio@loja.com" "x")
    as (id & u & H1 & H2 & H3 & H4 & _);
    try reflexivity; try discriminate.
  - apply email_pattern_spec. vm_compute. reflexivity.
  - intros i u Hi Hu.
    assert (Hno : ~ map_Exists (fun _ v => u_email v = "caio@loja.com")
                      (users sample_db))
      by (refine (proj1 (bool_decide_eq_false _) _); vm_compute; reflexivity).
    apply Hno, map_Exists_lookup. eauto.
  - exists id, u. auto.
Defined.
